(** * Titan webhook relay (app.py): a shallow embedding and its properties

    The relay keeps two process-wide dictionaries, [EMA_STATE] (latest EMA
    snapshot per ticker) and [LAST_TRADES] (last trade per ticker), fills the
    first from [ema_update] JSON messages and, on a text alert, decides
    buy / sell / skip from the stored snapshot and forwards the order to the
    TradersPost webhook.

    Python values are embedded as the inductive [value]; the two dictionaries
    are finite maps; the handlers run in a state-and-exception monad whose
    state also carries a trace of the calls made to [send_to_traderspost] and
    to [requests.post].  What the interpreter and the libraries compute
    ([float], [repr] of a string, [json.loads], [re] searches, the answer of
    the network) is taken as a parameter.  Calls to [logger] are left out. *)

From Stdlib Require Import ZArith String Ascii List Lia.
From stdpp Require Import base option countable gmap strings list pretty.

Local Open Scope string_scope.
Local Open Scope Z_scope.
Set Warnings "-register-all".

(** ** Python values *)

(** The values [json.loads] can produce, which are also the values the
    handlers build: [None], [bool], [int], [float], [str], [list] and [dict]
    with [str] keys (a dict keeps its insertion order). *)
Inductive value {float : Type} : Type :=
  | VNone
  | VBool (b : bool)
  | VInt (z : Z)
  | VFloat (f : float)
  | VStr (s : string)
  | VList (l : list value)
  | VDict (d : list (string * value)).
Arguments value : clear implicits.

Abbreviation pydict float := (list (string * value float)).

(** What [float] objects are and what the interpreter does with them. *)
Class PyRuntime (float : Type) := {
  float_zero : float;                      (* the literal 0.0 *)
  float_of_str : string → option float;    (* float(s); None when it raises ValueError *)
  float_of_int : Z → option float;         (* float(n); None when it raises OverflowError *)
  float_truthy : float → bool;             (* bool(x) *)
  float_as_int : float → option Z;         (* the int n with x == n, when there is one *)
  float_repr : float → string;             (* repr(x) *)
  str_repr : string → string;              (* repr(s), quotes and escapes included *)
}.

Section Values.
Context {float : Type} `{PyRuntime float}.

Abbreviation val := (value float).
Abbreviation dict := (pydict float).

(** [d.get(k)] on the entries in insertion order; keys are unique in a
    Python dict, so the first hit is the only one. *)
Fixpoint dict_get (k : string) (d : dict) : option val :=
  match d with
  | [] => None
  | (k', v) :: d' => if String.eqb k' k then Some v else dict_get k d'
  end.

(** [d.get(k, dflt)] *)
Definition dict_get_or (k : string) (dflt : val) (d : dict) : val :=
  default dflt (dict_get k d).

(** [d[k] = v]: the value is replaced in place when the key is there, the
    entry is added at the end otherwise. *)
Fixpoint dict_set (k : string) (v : val) (d : dict) : dict :=
  match d with
  | [] => [(k, v)]
  | (k', v') :: d' =>
      if String.eqb k' k then (k', v) :: d' else (k', v') :: dict_set k v d'
  end.

(** [bool(v)], as used by [if v], [not v], [and]. *)
Definition truthy (v : val) : bool :=
  match v with
  | VNone => false
  | VBool b => b
  | VInt z => negb (z =? 0)
  | VFloat f => float_truthy f
  | VStr s => negb (String.eqb s "")
  | VList l => match l with [] => false | _ => true end
  | VDict d => match d with [] => false | _ => true end
  end.

(** [s.join(l)] *)
Fixpoint str_join (sep : string) (l : list string) : string :=
  match l with
  | [] => ""
  | [s] => s
  | s :: l' => s +:+ sep +:+ str_join sep l'
  end.

(** [repr(v)] *)
Fixpoint py_repr (v : val) : string :=
  match v with
  | VNone => "None"
  | VBool true => "True"
  | VBool false => "False"
  | VInt z => pretty z
  | VFloat f => float_repr f
  | VStr s => str_repr s
  | VList l => "[" +:+ str_join ", " (map py_repr l) +:+ "]"
  | VDict d =>
      "{" +:+ str_join ", "
               (map (λ kv, str_repr (fst kv) +:+ ": " +:+ py_repr (snd kv)) d)
          +:+ "}"
  end.

(** [str(v)], which is also what an f-string field prints. *)
Definition py_str (v : val) : string :=
  match v with
  | VStr s => s
  | _ => py_repr v
  end.

(** [float(v)]; [None] stands for the exception ([TypeError] on [None], a
    list or a dict, [ValueError] on a malformed string, [OverflowError] on
    a huge int). *)
Definition py_float (v : val) : option float :=
  match v with
  | VFloat f => Some f
  | VInt z => float_of_int z
  | VBool b => float_of_int (Z.b2z b)
  | VStr s => float_of_str s
  | VNone | VList _ | VDict _ => None
  end.

(** [v == s] for a [str] literal [s]: only an equal [str] compares equal. *)
Definition py_eq_str (v : val) (s : string) : bool :=
  match v with
  | VStr s' => String.eqb s' s
  | _ => false
  end.

End Values.

(** ** Strings *)

Definition is_upper (c : ascii) : bool :=
  let n := nat_of_ascii c in (Nat.leb 65 n && Nat.leb n 90)%bool.

Definition lower_ascii (c : ascii) : ascii :=
  if is_upper c then ascii_of_nat (nat_of_ascii c + 32) else c.

(** [s.lower()].  Strings are sequences of bytes here and only the letters
    A to Z are mapped; the handlers compare the result with the ASCII word
    [true] only. *)
Fixpoint str_lower (s : string) : string :=
  match s with
  | EmptyString => EmptyString
  | String c s' => String (lower_ascii c) (str_lower s')
  end.

(** ** Dictionary keys *)

(** The hashable values, up to the equality a Python dict uses on its keys:
    [True == 1 == 1.0], so a bool, an int and a float equal to an int share
    a key; a [str] is equal to a [str] only. *)
Inductive key {float : Type} : Type :=
  | KNone
  | KStr (s : string)
  | KInt (z : Z)
  | KFloat (f : float).
Arguments key : clear implicits.

Global Instance key_eq_dec `{EqDecision float} : EqDecision (key float).
Proof. solve_decision. Defined.

Definition key_encode {float} (k : key float) : (unit + string) + (Z + float) :=
  match k with
  | KNone => inl (inl tt)
  | KStr s => inl (inr s)
  | KInt z => inr (inl z)
  | KFloat f => inr (inr f)
  end.

Definition key_decode {float} (x : (unit + string) + (Z + float)) : key float :=
  match x with
  | inl (inl _) => KNone
  | inl (inr s) => KStr s
  | inr (inl z) => KInt z
  | inr (inr f) => KFloat f
  end.

Global Instance key_countable `{Countable float} : Countable (key float).
Proof.
  apply (inj_countable' key_encode key_decode).
  intros []; reflexivity.
Defined.

(** [hash(v)] as a key class; [None] stands for
    [TypeError: unhashable type] (a list or a dict). *)
Definition hash_key `{PyRuntime float} (v : value float) : option (key float) :=
  match v with
  | VNone => Some KNone
  | VBool b => Some (KInt (Z.b2z b))
  | VInt z => Some (KInt z)
  | VFloat f => Some (match float_as_int f with Some z => KInt z | None => KFloat f end)
  | VStr s => Some (KStr s)
  | VList _ | VDict _ => None
  end.

(** ** Configuration, libraries, state *)

(** The module-level settings read from the environment at import time. *)
Record config := {
  WEBHOOK_SECRET : string;
  TP_WEBHOOK_URL : string;
  TP_DEFAULT_QTY : Z;
}.

(** What [requests.post] does: it returns a response, of which the handler
    reads [ok], [status_code] and [text], or it raises an exception [e]
    ([exc_text] is [str(e)]). *)
Inductive post_outcome :=
  | Responded (ok : bool) (status_code : Z) (text : string)
  | Failed (exc_text : string).

(** Calls observed on the boundary of the handlers. *)
Inductive event {float : Type} : Type :=
  | GatewayCall (payload : pydict float)                 (* send_to_traderspost(payload) *)
  | HttpPost (url : string) (payload : pydict float).    (* requests.post(url, json=payload, timeout=5) *)
Arguments event : clear implicits.

(** The libraries the handlers call.  The network may answer a request from
    everything that happened before it. *)
Class Libs (float : Type) := {
  json_loads : string → option (value float);          (* None when json.loads raises *)
  TITAN_RE_search : string → option (string * string); (* groups ticker, price of the first match *)
  EXIT_RE_search : string → option (string * string);
  requests_post : list (event float) → string → pydict float → post_outcome;
}.

Record state {float : Type} `{Countable float} := {
  EMA_STATE : gmap (key float) (pydict float);
  LAST_TRADES : gmap (key float) (pydict float);
  trace : list (event float);
}.
Arguments state float {_ _}.

(** The exceptions the handlers meet, all subclasses of [Exception]:
    [TypeError] from an unhashable key, and whatever [requests.post] or the
    reading of its response raises. *)
Inductive exn :=
  | TypeError (msg : string)
  | RequestError (msg : string).

(** [str(e)] *)
Definition exn_str (e : exn) : string :=
  match e with
  | TypeError msg | RequestError msg => msg
  end.

Inductive result (A : Type) :=
  | Ok (a : A)
  | Raise (e : exn).
Arguments Ok {A} a.
Arguments Raise {A} e.

(** ** The handlers *)

Section App.
Context {float : Type} `{Countable float} {RT : PyRuntime float} {LB : Libs float}.
Context (cfg : config).

Abbreviation val := (value float).
Abbreviation dict := (pydict float).
Abbreviation st := (state float).

(** A handler reads and writes the state and returns or raises; what it
    wrote before raising stays written. *)
Definition M (A : Type) : Type := st → result A * st.

Global Instance M_ret : MRet M := λ A a s, (Ok a, s).
Global Instance M_bind : MBind M := λ A B f m s,
  match m s with
  | (Ok a, s') => f a s'
  | (Raise e, s') => (Raise e, s')
  end.

Definition get_state : M st := λ s, (Ok s, s).
Definition raise {A} (e : exn) : M A := λ s, (Raise e, s).

Definition emit (ev : event float) : M unit := λ s,
  (Ok tt, {| EMA_STATE := EMA_STATE s; LAST_TRADES := LAST_TRADES s;
             trace := trace s ++ [ev] |}).

Definition unhashable (v : val) : exn :=
  match v with
  | VList _ => TypeError "unhashable type: 'list'"
  | _ => TypeError "unhashable type: 'dict'"
  end.

(** [EMA_STATE[k] = info] *)
Definition EMA_STATE_setitem (k : val) (info : dict) : M unit :=
  match hash_key k with
  | None => raise (unhashable k)
  | Some hk => λ s,
      (Ok tt, {| EMA_STATE := <[hk := info]> (EMA_STATE s);
                 LAST_TRADES := LAST_TRADES s; trace := trace s |})
  end.

(** [EMA_STATE.get(k)]; Python's [None] result is [None] here. *)
Definition EMA_STATE_get (k : val) : M (option dict) :=
  match hash_key k with
  | None => raise (unhashable k)
  | Some hk => s ← get_state; mret (EMA_STATE s !! hk)
  end.

(** [LAST_TRADES[k] = rec] *)
Definition LAST_TRADES_setitem (k : val) (rec : dict) : M unit :=
  match hash_key k with
  | None => raise (unhashable k)
  | Some hk => λ s,
      (Ok tt, {| EMA_STATE := EMA_STATE s;
                 LAST_TRADES := <[hk := rec]> (LAST_TRADES s); trace := trace s |})
  end.

(** [try: ... except Exception as e: ...] *)
Definition try_except {A} (body : M A) (handler : exn → M A) : M A := λ s,
  match body s with
  | (Ok a, s') => (Ok a, s')
  | (Raise e, s') => handler e s'
  end.

(** [requests.post(url, json=payload, timeout=5)], giving the response's
    [ok], [status_code] and [text]. *)
Definition http_post (url : string) (payload : dict) : M (bool * Z * string) := λ s,
  let s' := {| EMA_STATE := EMA_STATE s; LAST_TRADES := LAST_TRADES s;
               trace := trace s ++ [HttpPost url payload] |} in
  match requests_post (trace s) url payload with
  | Responded ok status_code text => (Ok (ok, status_code, text), s')
  | Failed e => (Raise (RequestError e), s')
  end.

(** app.py, lines 31-47 *)
Definition send_to_traderspost (payload : dict) : M dict :=
  emit (GatewayCall payload);;
  if negb (truthy (VStr (TP_WEBHOOK_URL cfg))) then
    mret [("ok", VBool false); ("error", VStr "TP_WEBHOOK_URL not set")]
  else
    try_except
      ('(ok, status_code, text) ← http_post (TP_WEBHOOK_URL cfg) payload;
       mret [("ok", VBool ok); ("status_code", VInt status_code); ("body", VStr text)])
      (λ e, mret [("ok", VBool false); ("error", VStr (exn_str e))]).

(** [float(data.get(k, 0.0))] inside [try], [0.0] in the [except] branch. *)
Definition float_field (k : string) (data : dict) : float :=
  match py_float (dict_get_or k (VFloat float_zero) data) with
  | Some f => f
  | None => float_zero
  end.

(** [str(data.get(k, "")).lower() == "true"] *)
Definition flag_field (k : string) (data : dict) : bool :=
  let raw := str_lower (py_str (dict_get_or k (VStr "") data)) in
  if String.eqb raw "true" then true else false.

(** The snapshot built at lines 80-87. *)
Definition ema_snapshot (data : dict) : dict :=
  [("above13", VBool (flag_field "above13" data));
   ("above200", VBool (flag_field "above200" data));
   ("ema13", VFloat (float_field "ema13" data));
   ("ema200", VFloat (float_field "ema200" data));
   ("close", VFloat (float_field "close" data));
   ("time", dict_get_or "time" (VStr "") data)].

(** app.py, lines 50-88 *)
Definition update_ema_state_from_json (data : dict) : M unit :=
  let ticker := dict_get_or "ticker" VNone data in
  if negb (truthy ticker) then
    mret tt
  else
    EMA_STATE_setitem ticker (ema_snapshot data).

(** The body shared by [parse_titan_new_trade] and [parse_exit_signal]:
    the ticker group, and the price group when [float] accepts it. *)
Definition parse_groups (m : option (string * string)) : dict :=
  match m with
  | None => []
  | Some (ticker, price) =>
      let out := [("ticker", VStr ticker)] in
      match float_of_str price with
      | Some p => dict_set "price" (VFloat p) out
      | None => out
      end
  end.

(** app.py, lines 104-114 *)
Definition parse_titan_new_trade (text : string) : dict :=
  parse_groups (TITAN_RE_search text).

(** app.py, lines 117-127 *)
Definition parse_exit_signal (text : string) : dict :=
  parse_groups (EXIT_RE_search text).

Definition is_none (v : val) : bool :=
  match v with VNone => true | _ => false end.

Definition skipped (reason : string) : dict :=
  [("ok", VBool true); ("skipped", VStr reason)].

(** Lines 166-173: the order sent for an entry. *)
Definition entry_payload (ticker : val) (direction : string) (price : val) : dict :=
  let p0 := [("ticker", ticker); ("action", VStr direction)] in
  let p1 := if 0 <? TP_DEFAULT_QTY cfg
            then dict_set "quantity" (VInt (TP_DEFAULT_QTY cfg)) p0 else p0 in
  if negb (is_none price) then dict_set "price" price p1 else p1.

(** Lines 177-186: the record kept for an entry. *)
Definition entry_record (direction : string) (price above13 above200 : val)
    (ema_info : dict) (time_str : val) (result : dict) : dict :=
  [("last_event", VStr "new_trade");
   ("direction", VStr direction);
   ("price", price);
   ("ema13_above", above13);
   ("ema200_above", above200);
   ("ema_snapshot", VDict ema_info);
   ("time", time_str);
   ("tp_result", VDict result)].

(** [{"ok": result.get("ok", False), "detail": result}] *)
Definition reply_of (result : dict) : dict :=
  [("ok", dict_get_or "ok" (VBool false) result); ("detail", VDict result)].

(** Lines 166-188, once the direction is known. *)
Definition submit_entry (ticker : val) (direction : string)
    (price above13 above200 : val) (ema_info : dict) (time_str : val) : M dict :=
  result ← send_to_traderspost (entry_payload ticker direction price);
  LAST_TRADES_setitem ticker
    (entry_record direction price above13 above200 ema_info time_str result);;
  mret (reply_of result).

(** app.py, lines 130-188 *)
Definition handle_new_trade_for_ticker (ticker price time_str : val) : M dict :=
  o ← EMA_STATE_get ticker;
  match o with
  | None => mret (skipped "no_ema_state")
  | Some ema_info =>
      if negb (truthy (VDict ema_info)) then
        mret (skipped "no_ema_state")
      else
        let above13 := dict_get_or "above13" VNone ema_info in
        let above200 := dict_get_or "above200" VNone ema_info in
        if is_none above13 || is_none above200 then
          mret (skipped "missing_ema_fields")
        else if truthy above13 && truthy above200 then
          submit_entry ticker "buy" price above13 above200 ema_info time_str
        else if negb (truthy above13) && negb (truthy above200) then
          submit_entry ticker "sell" price above13 above200 ema_info time_str
        else
          mret (skipped "ema_alignment_filter")
  end.

(** Lines 193-198: the order sent for an exit. *)
Definition exit_payload (ticker price : val) : dict :=
  let p0 := [("ticker", ticker); ("action", VStr "exit")] in
  if negb (is_none price) then dict_set "price" price p0 else p0.

(** Lines 202-207: the record kept for an exit. *)
Definition exit_record (price time_str : val) (result : dict) : dict :=
  [("last_event", VStr "exit");
   ("price", price);
   ("time", time_str);
   ("tp_result", VDict result)].

(** app.py, lines 191-209 *)
Definition handle_exit_for_ticker (ticker price time_str : val) : M dict :=
  result ← send_to_traderspost (exit_payload ticker price);
  LAST_TRADES_setitem ticker (exit_record price time_str result);;
  mret (reply_of result).

(** [200 if result.get("ok", True) else 500] *)
Definition status_of (result : dict) : Z :=
  if truthy (dict_get_or "ok" (VBool true) result) then 200 else 500.

(** [isinstance(data, dict) and data], [data] being [None] when
    [json.loads] raised. *)
Definition nonempty_dict (data : option val) : option dict :=
  match data with
  | Some (VDict (e :: d)) => Some (e :: d)
  | _ => None
  end.

(** app.py, lines 214-259: the POST /webhook route.  [secret] is
    [request.args.get("secret")], [raw_body] the request body as text; the
    result is the JSON object sent back and the HTTP status. *)
Definition webhook (secret : option string) (raw_body : string) : M (dict * Z) :=
  if truthy (VStr (WEBHOOK_SECRET cfg))
     && negb (bool_decide (secret = Some (WEBHOOK_SECRET cfg))) then
    mret ([("ok", VBool false); ("error", VStr "invalid secret")], 403)
  else
    match nonempty_dict (json_loads raw_body) with
    | Some data =>
        let msg_type := dict_get_or "type" VNone data in
        if py_eq_str msg_type "ema_update" then
          update_ema_state_from_json data;;
          mret ([("ok", VBool true)], 200)
        else
          mret ([("ok", VBool false);
                 ("error", VStr ("unknown json type " +:+ py_str msg_type))], 400)
    | None =>
        let titan_info := parse_titan_new_trade raw_body in
        if truthy (VDict titan_info) then
          let ticker := dict_get_or "ticker" VNone titan_info in
          let price := dict_get_or "price" VNone titan_info in
          result ← handle_new_trade_for_ticker ticker price VNone;
          mret (result, status_of result)
        else
          let exit_info := parse_exit_signal raw_body in
          if truthy (VDict exit_info) then
            let ticker := dict_get_or "ticker" VNone exit_info in
            let price := dict_get_or "price" VNone exit_info in
            result ← handle_exit_for_ticker ticker price VNone;
            mret (result, status_of result)
          else
            mret ([("ok", VBool false); ("error", VStr "unrecognized payload")], 400)
    end.

End App.

(** ** Reading a run *)

Section Observations.
Context {float : Type} `{Countable float}.

(** The start of the process: both dictionaries empty, nothing called. *)
Definition init : state float :=
  {| EMA_STATE := ∅; LAST_TRADES := ∅; trace := [] |}.

(** The payloads handed to [send_to_traderspost] in a trace. *)
Fixpoint gateway_calls (tr : list (event float)) : list (pydict float) :=
  match tr with
  | [] => []
  | GatewayCall p :: tr' => p :: gateway_calls tr'
  | HttpPost _ _ :: tr' => gateway_calls tr'
  end.

(** The requests put on the network in a trace. *)
Fixpoint http_posts (tr : list (event float)) : list (string * pydict float) :=
  match tr with
  | [] => []
  | GatewayCall _ :: tr' => http_posts tr'
  | HttpPost u p :: tr' => (u, p) :: http_posts tr'
  end.

(** A stored snapshot whose two alignment flags are there and are [bool]s. *)
Definition genuine_flags (info : pydict float) : Prop :=
  ∃ b13 b200 : bool,
    dict_get "above13" info = Some (VBool b13)
    ∧ dict_get "above200" info = Some (VBool b200).

(** A state with the EMA dictionary replaced. *)
Definition with_EMA_STATE (E : gmap (key float) (pydict float)) (s : state float)
    : state float :=
  {| EMA_STATE := E; LAST_TRADES := LAST_TRADES s; trace := trace s |}.

End Observations.

(** The requests a client, or a caller inside the module, can make. *)
Inductive request {float : Type} : Type :=
  | ReqUpdate (data : pydict float)
  | ReqNewTrade (ticker price time_str : value float)
  | ReqExit (ticker price time_str : value float)
  | ReqWebhook (secret : option string) (raw_body : string).
Arguments request : clear implicits.

Section Runs.
Context {float : Type} `{Countable float} {RT : PyRuntime float} {LB : Libs float}.
Context (cfg : config).

(** The state a request leaves behind, whether it returned or raised. *)
Definition serve (s : state float) (r : request float) : state float :=
  match r with
  | ReqUpdate data => (update_ema_state_from_json data s).2
  | ReqNewTrade t p ts => (handle_new_trade_for_ticker cfg t p ts s).2
  | ReqExit t p ts => (handle_exit_for_ticker cfg t p ts s).2
  | ReqWebhook secret body => (webhook cfg secret body s).2
  end.

(** The states the process can be in: [init] followed by any requests. *)
Inductive reachable : state float → Prop :=
  | reachable_init : reachable init
  | reachable_serve s r : reachable s → reachable (serve s r).

End Runs.

(** ** A small runtime to run the handlers on

    Floats are the integers, [float] reads an optional sign and digits, the
    JSON decoder and the two searches know a few bodies, and the network
    answers 200. *)
Module Example.

Fixpoint digits (s : string) (acc : Z) : option Z :=
  match s with
  | EmptyString => Some acc
  | String c s' =>
      let n := Z.of_nat (nat_of_ascii c) in
      if (48 <=? n) && (n <=? 57) then digits s' (10 * acc + (n - 48)) else None
  end.

Definition int_of_str (s : string) : option Z :=
  match s with
  | EmptyString => None
  | String "-" (String c s') => Z.opp <$> digits (String c s') 0
  | _ => digits s 0
  end.

Global Instance runtime : PyRuntime Z := {|
  float_zero := 0;
  float_of_str := int_of_str;
  float_of_int := Some;
  float_truthy := λ x, negb (x =? 0);
  float_as_int := Some;
  float_repr := λ x, pretty x +:+ ".0";
  str_repr := λ s, "'" +:+ s +:+ "'";
|}.

(** A JSON string literal: the text between two quotation marks. *)
Definition quoted (s : string) : string :=
  String (ascii_of_nat 34) (s +:+ String (ascii_of_nat 34) EmptyString).

(** A JSON object with one string member per pair. *)
Definition json_object (members : list (string * string)) : string :=
  "{" +:+ str_join ", " (map (λ kv, quoted kv.1 +:+ ": " +:+ quoted kv.2) members) +:+ "}".

Definition unknown_kind_body : string :=
  json_object [("type", "unknown_kind")].
Definition ema_update_body : string :=
  json_object [("type", "ema_update"); ("ticker", "MNQZ2025"); ("above13", "TRUE")].
Definition no_ticker_body : string :=
  json_object [("type", "ema_update"); ("above13", "true")].

(** The decoder, as a table over these three bodies. *)
Definition loads (s : string) : option (value Z) :=
  if String.eqb s unknown_kind_body then
    Some (VDict [("type", VStr "unknown_kind")])
  else if String.eqb s ema_update_body then
    Some (VDict [("type", VStr "ema_update"); ("ticker", VStr "MNQZ2025");
                 ("above13", VStr "TRUE")])
  else if String.eqb s no_ticker_body then
    Some (VDict [("type", VStr "ema_update"); ("above13", VStr "true")])
  else None.

Global Instance libs : Libs Z := {|
  json_loads := loads;
  TITAN_RE_search := λ s,
    if String.eqb s "MNQZ2025 New Trade Design , Price = 21065"
    then Some ("MNQZ2025", "21065") else None;
  EXIT_RE_search := λ s,
    if String.eqb s "MNQZ2025 Exit Signal, Price = 21040"
    then Some ("MNQZ2025", "21040") else None;
  requests_post := λ _ _ _, Responded true 200 "ok";
|}.

(** A deployment with a secret and an endpoint, and one with neither. *)
Definition cfg : config :=
  {| WEBHOOK_SECRET := "s3cret"; TP_WEBHOOK_URL := "https://tp.example/hook";
     TP_DEFAULT_QTY := 1 |}.
Definition cfg_unset : config :=
  {| WEBHOOK_SECRET := ""; TP_WEBHOOK_URL := ""; TP_DEFAULT_QTY := 1 |}.

(** The snapshot of the scenario: both flags true. *)
Definition aligned_up : pydict Z :=
  [("above13", VBool true); ("above200", VBool true);
   ("ema13", VFloat 21050); ("ema200", VFloat 20980);
   ("close", VFloat 21060); ("time", VStr "t0")].

(** The opposite snapshot: both flags false. *)
Definition aligned_down : pydict Z :=
  [("above13", VBool false); ("above200", VBool false);
   ("ema13", VFloat 21050); ("ema200", VFloat 21120);
   ("close", VFloat 21040); ("time", VStr "t0")].

Definition with_trend (info : pydict Z) : state Z :=
  {| EMA_STATE := {[ KStr "MNQZ2025" := info ]}; LAST_TRADES := ∅; trace := [] |}.

(** The same with an earlier exit already recorded for the ticker. *)
Definition earlier_exit : pydict Z :=
  [("last_event", VStr "exit"); ("price", VFloat 21000); ("time", VNone);
   ("tp_result", VDict [("ok", VBool true); ("status_code", VInt 200);
                        ("body", VStr "ok")])].

Definition traded : state Z :=
  {| EMA_STATE := {[ KStr "MNQZ2025" := aligned_up ]};
     LAST_TRADES := {[ KStr "MNQZ2025" := earlier_exit ]}; trace := [] |}.

(** An exit order, and an update whose ema200 is not a number and whose
    close is absent. *)
Definition exit_order : pydict Z :=
  [("ticker", VStr "MNQZ2025"); ("action", VStr "exit"); ("price", VFloat 21040)].

Definition ema_message : pydict Z :=
  [("type", VStr "ema_update"); ("ticker", VStr "MNQZ2025");
   ("above13", VStr "TRUE"); ("above200", VStr "false"); ("ema13", VStr "21050");
   ("ema200", VStr "n/a")].

End Example.

(** ** Case-insensitive comparison, stated without [lower] *)

(** [c] with its sixth bit set: the lower-case form of an upper-case letter. *)
Definition shift_case (c : ascii) : ascii := ascii_of_nat (nat_of_ascii c + 32).

(** Two characters are the same letter up to case. *)
Definition same_letter (a b : ascii) : bool :=
  Ascii.eqb a b
  || (is_upper a && Ascii.eqb b (shift_case a))
  || (is_upper b && Ascii.eqb a (shift_case b)).

(** Two strings have the same length and the same letters up to case. *)
Fixpoint eq_ignore_case (s t : string) : bool :=
  match s, t with
  | EmptyString, EmptyString => true
  | String a s', String b t' => same_letter a b && eq_ignore_case s' t'
  | _, _ => false
  end.

(** ** The two alert patterns

    [re] is embedded for what the patterns [TITAN_RE] and [EXIT_RE] use: a
    pattern is a sequence of literals, greedy repetitions of a character
    class, an optional literal and named groups around a repetition.  The
    text is the UTF-8 form of the body, so a whitespace character can take
    up to three bytes; letters, digits and punctuation take one. *)

(** One character of a class read off the front of the text: the character
    and what follows it. *)
Definition char_class := string → option (string * string).

(** A class of one-byte characters, such as [[A-Z0-9_]]. *)
Definition byte_class (p : ascii → bool) : char_class := λ s,
  match s with
  | String c s' => if p c then Some (String c EmptyString, s') else None
  | EmptyString => None
  end.

Definition byte_in (lo hi : nat) (c : ascii) : bool :=
  let n := nat_of_ascii c in (Nat.leb lo n && Nat.leb n hi)%bool.

(** [[A-Z0-9_]] *)
Definition ticker_char (c : ascii) : bool :=
  byte_in 65 90 c || byte_in 48 57 c || Ascii.eqb c "_".

(** [[0-9.]] *)
Definition price_char (c : ascii) : bool :=
  byte_in 48 57 c || Ascii.eqb c ".".

(** The one-byte whitespace characters: tab to carriage return, the four
    separators U+001C to U+001F, and the space. *)
Definition space_char (c : ascii) : bool :=
  byte_in 9 13 c || byte_in 28 32 c.

(** The whitespace characters of two and three bytes, by their bytes. *)
Definition wide_space (b1 b2 b3 : nat) : bool :=
  ((b1 =? 225) && (b2 =? 154) && (b3 =? 128))%nat            (* U+1680 *)
  || ((b1 =? 226) && (b2 =? 128)
      && (Nat.leb 128 b3 && Nat.leb b3 138                    (* U+2000 to U+200A *)
          || (b3 =? 168) || (b3 =? 169) || (b3 =? 175)))%nat  (* U+2028, U+2029, U+202F *)
  || ((b1 =? 226) && (b2 =? 129) && (b3 =? 159))%nat          (* U+205F *)
  || ((b1 =? 227) && (b2 =? 128) && (b3 =? 128))%nat.         (* U+3000 *)

(** [\s] on a [str] pattern: every character for which [str.isspace] holds. *)
Definition space_class : char_class := λ s,
  match s with
  | String c1 s1 =>
      if space_char c1 then Some (String c1 EmptyString, s1)
      else match s1 with
           | String c2 s2 =>
               if ((nat_of_ascii c1 =? 194)
                   && ((nat_of_ascii c2 =? 133) || (nat_of_ascii c2 =? 160)))%nat
               then Some (String c1 (String c2 EmptyString), s2)   (* U+0085, U+00A0 *)
               else match s2 with
                    | String c3 s3 =>
                        if wide_space (nat_of_ascii c1) (nat_of_ascii c2) (nat_of_ascii c3)
                        then Some (String c1 (String c2 (String c3 EmptyString)), s3)
                        else None
                    | EmptyString => None
                    end
           | EmptyString => None
           end
  | EmptyString => None
  end.

Inductive atom :=
  | Lit (text : string)        (* the characters themselves *)
  | Star (c : char_class)      (* c*, greedy *)
  | Plus (c : char_class)      (* c+, greedy *)
  | Opt (text : string).       (* text?, greedy *)

Inductive item :=
  | Plain (a : atom)
  | Group (name : string) (a : atom).   (* (?P<name>a) *)

Definition regex := list item.

(** [s] split after the prefix [p], when it starts with it. *)
Fixpoint strip_prefix (p s : string) : option string :=
  match p, s with
  | EmptyString, _ => Some s
  | String a p', String b s' => if Ascii.eqb a b then strip_prefix p' s' else None
  | String _ _, EmptyString => None
  end.

(** The ways [c*] can match at the front of [s], as (matched, rest), the
    longest first: the engine takes as many characters as it can and gives
    them back one at a time. *)
Fixpoint class_run (fuel : nat) (c : char_class) (s : string) : list (string * string) :=
  match fuel with
  | O => [(EmptyString, s)]
  | S fuel' =>
      match c s with
      | Some (ch, s') =>
          map (λ mr, (ch +:+ mr.1, mr.2)) (class_run fuel' c s') ++ [(EmptyString, s)]
      | None => [(EmptyString, s)]
      end
  end.

(** The ways an atom can match at the front of [s], in the order the engine
    tries them. *)
Definition alternatives (a : atom) (s : string) : list (string * string) :=
  match a with
  | Lit text =>
      match strip_prefix text s with Some s' => [(text, s')] | None => [] end
  | Star c => class_run (String.length s) c s
  | Plus c =>
      match c s with
      | Some (ch, s') =>
          map (λ mr, (ch +:+ mr.1, mr.2)) (class_run (String.length s') c s')
      | None => []
      end
  | Opt text =>
      match strip_prefix text s with
      | Some s' => [(text, s'); (EmptyString, s)]
      | None => [(EmptyString, s)]
      end
  end.

(** The first alternative on which the rest of the match succeeds. *)
Fixpoint first_some {A B} (f : A → option B) (l : list A) : option B :=
  match l with
  | [] => None
  | x :: l' => match f x with Some y => Some y | None => first_some f l' end
  end.

(** [pattern.match] at the front of [s]: the groups of the first way the
    whole pattern matches, backtracking over the alternatives of each item. *)
Fixpoint match_here (r : regex) (s : string) (groups : list (string * string))
    : option (list (string * string)) :=
  match r with
  | [] => Some groups
  | Plain a :: r' =>
      first_some (λ mr, match_here r' mr.2 groups) (alternatives a s)
  | Group name a :: r' =>
      first_some (λ mr, match_here r' mr.2 (groups ++ [(name, mr.1)])) (alternatives a s)
  end.

(** [pattern.search(s)]: the match at the leftmost position that has one. *)
Fixpoint re_search_groups (r : regex) (s : string) : option (list (string * string)) :=
  match match_here r s [] with
  | Some groups => Some groups
  | None =>
      match s with
      | EmptyString => None
      | String _ s' => re_search_groups r s'
      end
  end.

(** [m.group(name)] *)
Fixpoint group (name : string) (groups : list (string * string)) : string :=
  match groups with
  | [] => EmptyString
  | (n, text) :: groups' => if String.eqb n name then text else group name groups'
  end.

(** The groups ticker and price of [pattern.search(s)]. *)
Definition re_search (r : regex) (s : string) : option (string * string) :=
  match re_search_groups r s with
  | Some groups => Some (group "ticker" groups, group "price" groups)
  | None => None
  end.

(** app.py, lines 93-95:
    [(?P<ticker>[A-Z0-9_]+)\s+New Trade Design\s*,\s*Price\s*=\s*(?P<price>[0-9.]+)] *)
Definition TITAN_RE : regex :=
  [Group "ticker" (Plus (byte_class ticker_char));
   Plain (Plus space_class); Plain (Lit "New Trade Design");
   Plain (Star space_class); Plain (Lit ",");
   Plain (Star space_class); Plain (Lit "Price");
   Plain (Star space_class); Plain (Lit "=");
   Plain (Star space_class); Group "price" (Plus (byte_class price_char))].

(** app.py, lines 99-101:
    [(?P<ticker>[A-Z0-9_]+)\s+Exit Signal\s*,?\s*Price\s*=\s*(?P<price>[0-9.]+)] *)
Definition EXIT_RE : regex :=
  [Group "ticker" (Plus (byte_class ticker_char));
   Plain (Plus space_class); Plain (Lit "Exit Signal");
   Plain (Star space_class); Plain (Opt ",");
   Plain (Star space_class); Plain (Lit "Price");
   Plain (Star space_class); Plain (Lit "=");
   Plain (Star space_class); Group "price" (Plus (byte_class price_char))].

(** Every character of [s] is in the class [p]. *)
Fixpoint str_all (p : ascii → bool) (s : string) : bool :=
  match s with
  | EmptyString => true
  | String c s' => p c && str_all p s'
  end.

(** The character [c] occurs in [s]. *)
Fixpoint str_mem (c : ascii) (s : string) : bool :=
  match s with
  | EmptyString => false
  | String c' s' => Ascii.eqb c' c || str_mem c s'
  end.

(** [s] is empty or starts with a character outside the class [p]. *)
Definition stops (p : ascii → bool) (s : string) : Prop :=
  ∀ c s', s = String c s' → p c = false.

(** A class that takes its character off the front of the text. *)
Definition class_ok (c : char_class) : Prop :=
  ∀ s ch s', c s = Some (ch, s') → s = ch +:+ s' ∧ ch ≠ "".

(** A pattern all of whose classes take their character off the front. *)
Definition atom_of (it : item) : atom :=
  match it with Plain a | Group _ a => a end.

Definition atom_ok (a : atom) : Prop :=
  match a with
  | Star c | Plus c => class_ok c
  | Lit _ | Opt _ => True
  end.

Definition regex_ok (r : regex) : Prop := ∀ it, In it r → atom_ok (atom_of it).

(** The rest of a New Trade line after the ticker and the blanks that
    follow it, and the rest of an Exit line, with or without its comma;
    [w2] to [w5] are the optional blanks, [p] the price text. *)
Definition titan_tail (w2 w3 w4 w5 p post : string) : string :=
  "New Trade Design" +:+ w2 +:+ "," +:+ w3 +:+ "Price" +:+ w4 +:+ "=" +:+ w5 +:+ p +:+ post.

Definition exit_tail (comma : bool) (w2 w3 w4 w5 p post : string) : string :=
  "Exit Signal" +:+ w2
  +:+ (if comma then "," +:+ w3 +:+ "Price" +:+ w4 +:+ "=" +:+ w5 +:+ p +:+ post
       else "Price" +:+ w4 +:+ "=" +:+ w5 +:+ p +:+ post).

(** The libraries with the two searches done by the engine above. *)
Definition re_libs {float} (loads : string → option (value float))
    (post : list (event float) → string → pydict float → post_outcome) : Libs float :=
  {| json_loads := loads;
     TITAN_RE_search := re_search TITAN_RE;
     EXIT_RE_search := re_search EXIT_RE;
     requests_post := post |}.

(** ** Shapes kept by the handlers *)

Section Shapes.
Context {float : Type}.

(** What [send_to_traderspost] can return: the three fields of a response,
    or ok = False with an error text. *)
Definition gateway_shaped (result : pydict float) : Prop :=
  (∃ (ok : bool) (status_code : Z) (body : string),
     result = [("ok", VBool ok); ("status_code", VInt status_code); ("body", VStr body)])
  ∨ (∃ e : string, result = [("ok", VBool false); ("error", VStr e)]).

(** A snapshot as lines 80-87 build it: the six keys in order, the flags
    [bool], the three readings [float]. *)
Definition snapshot_shaped (info : pydict float) : Prop :=
  ∃ (above13 above200 : bool) (ema13 ema200 close : float) (time_ : value float),
    info = [("above13", VBool above13); ("above200", VBool above200);
            ("ema13", VFloat ema13); ("ema200", VFloat ema200);
            ("close", VFloat close); ("time", time_)].

(** A record of LAST_TRADES, field by field: an exit with its price, time
    and gateway result; or an entry whose direction is buy with both flags
    True or sell with both flags False, with the snapshot the flags were
    read from and the gateway result. *)
Definition ledger_record_ok (rec : pydict float) : Prop :=
  (∃ (price time_str : value float) (result : pydict float),
     gateway_shaped result
     ∧ rec = [("last_event", VStr "exit");
              ("price", price);
              ("time", time_str);
              ("tp_result", VDict result)])
  ∨ (∃ (b : bool) (price time_str : value float) (info result : pydict float),
       gateway_shaped result
       ∧ snapshot_shaped info
       ∧ dict_get "above13" info = Some (VBool b)
       ∧ dict_get "above200" info = Some (VBool b)
       ∧ rec = [("last_event", VStr "new_trade");
                ("direction", VStr (if b then "buy" else "sell"));
                ("price", price);
                ("ema13_above", VBool b);
                ("ema200_above", VBool b);
                ("ema_snapshot", VDict info);
                ("time", time_str);
                ("tp_result", VDict result)]).

(** An order whose action is one of the three the handlers write. *)
Definition order_action_ok (payload : pydict float) : Prop :=
  dict_get "action" payload = Some (VStr "buy")
  ∨ dict_get "action" payload = Some (VStr "sell")
  ∨ dict_get "action" payload = Some (VStr "exit").

End Shapes.

(** The requests [send_to_traderspost] puts on the network for a payload:
    one to TP_WEBHOOK_URL, none when it is empty. *)
Definition gateway_posts {float} (cfg : config) (payload : pydict float)
    : list (event float) :=
  if String.eqb (TP_WEBHOOK_URL cfg) "" then []
  else [HttpPost (TP_WEBHOOK_URL cfg) payload].

(** The price a route passes on: the float of the price group, [None] when
    [float] raised on it and the key price was never set (lines 110-113 and
    245). *)
Definition price_value `{PyRuntime float} (price_text : string) : value float :=
  match float_of_str price_text with
  | Some p => VFloat p
  | None => VNone
  end.

(** [secret] passes the check of lines 217-220. *)
Definition secret_ok (cfg : config) (secret : option string) : Prop :=
  WEBHOOK_SECRET cfg = "" ∨ secret = Some (WEBHOOK_SECRET cfg).

(** ** A second runtime, with the engine's searches

    The decoder knows one body, an update whose ticker is a list; the two
    searches are those of the patterns; the network times out. *)
Module LineExample.

Definition list_ticker_body : string :=
  "{" +:+ Example.quoted "type" +:+ ": " +:+ Example.quoted "ema_update" +:+ ", "
  +:+ Example.quoted "ticker" +:+ ": [" +:+ Example.quoted "MNQZ2025" +:+ "]}".

Definition list_ticker_message : pydict Z :=
  [("type", VStr "ema_update"); ("ticker", VList [VStr "MNQZ2025"])].

Definition loads (s : string) : option (value Z) :=
  if String.eqb s list_ticker_body then Some (VDict list_ticker_message) else None.

Definition libs : Libs Z := re_libs loads (λ _ _ _, Failed "timed out").

(** The two lines quoted in app.py, lines 92 and 98. *)
Definition titan_line : string := "MNQZ2025 New Trade Design , Price = 25787.50".
Definition exit_line : string := "MNQZ2025 Exit Signal,  Price = 25787.00".

(** A second update for the same ticker, and one for another ticker. *)
Definition ema_message_down : pydict Z :=
  [("type", VStr "ema_update"); ("ticker", VStr "MNQZ2025");
   ("above13", VStr "false"); ("above200", VStr "false"); ("close", VInt 20900)].

Definition ema_message_es : pydict Z :=
  [("type", VStr "ema_update"); ("ticker", VStr "ESZ2025");
   ("above13", VStr "true"); ("above200", VStr "true")].

End LineExample.

(** ** Properties *)

Section Properties.
Context {float : Type} `{Countable float} {RT : PyRuntime float} {LB : Libs float}.
Context (cfg : config).

Abbreviation val := (value float).
Abbreviation dict := (pydict float).
Abbreviation st := (state float).

Implicit Types (s : st) (data info result payload : dict) (k : key float).

Ltac run :=
  cbv [mbind M_bind mret M_ret get_state raise emit http_post try_except
       EMA_STATE_get EMA_STATE_setitem LAST_TRADES_setitem]; cbn [fst snd].

(** *** Strings *)

Lemma lower_ascii_not_upper (c d : ascii) :
  is_upper d = false →
  lower_ascii c = d ↔ same_letter c d = true.
Proof.
  intros Hd. unfold same_letter, lower_ascii. rewrite Hd.
  rewrite andb_false_l, orb_false_r.
  destruct (is_upper c) eqn:Hc; cbn [andb].
  - fold (shift_case c). split.
    + intros <-. rewrite Ascii.eqb_refl. apply orb_true_r.
    + intros [Hcd | Hcd]%orb_true_iff.
      * apply Ascii.eqb_eq in Hcd. congruence.
      * apply Ascii.eqb_eq in Hcd. congruence.
  - rewrite orb_false_r. symmetry. apply Ascii.eqb_eq.
Qed.

Lemma str_lower_true (s : string) :
  str_lower s = "true" ↔ eq_ignore_case s "true" = true.
Proof.
  destruct s as [|c1 [|c2 [|c3 [|c4 [|c5 s]]]]]; cbn;
    rewrite ?andb_false_r; try (split; discriminate).
  rewrite andb_true_r, !andb_true_iff.
  rewrite <- !lower_ascii_not_upper by reflexivity.
  split; [intros [= -> -> -> ->] | intros (-> & -> & -> & ->)]; auto.
Qed.

(** *** Dictionaries *)

Lemma dict_get_set_eq (key : string) (v : val) (d : dict) :
  dict_get key (dict_set key v d) = Some v.
Proof.
  induction d as [|[k' v'] d IH]; cbn.
  - now rewrite String.eqb_refl.
  - destruct (String.eqb k' key) eqn:E; cbn; rewrite E; auto.
Qed.

Lemma dict_get_set_ne (key key' : string) (v : val) (d : dict) :
  key ≠ key' → dict_get key' (dict_set key v d) = dict_get key' d.
Proof.
  intros Hne. induction d as [|[k' v'] d IH]; cbn.
  - destruct (String.eqb key key') eqn:E; auto.
    apply String.eqb_eq in E. contradiction.
  - destruct (String.eqb k' key) eqn:E; cbn.
    + apply String.eqb_eq in E. subst k'.
      destruct (String.eqb key key') eqn:E'; auto.
      apply String.eqb_eq in E'. contradiction.
    + destruct (String.eqb k' key'); auto.
Qed.

(** *** The gateway *)

(** A call to the gateway returns a dict, appends the call to the trace,
    then at most one request, and neither reads nor writes the two
    dictionaries. *)
Lemma send_to_traderspost_run payload (tr : list (event float)) :
  ∃ result posts,
    (∀ E L, send_to_traderspost cfg payload
              {| EMA_STATE := E; LAST_TRADES := L; trace := tr |} =
            (Ok result,
             {| EMA_STATE := E; LAST_TRADES := L;
                trace := tr ++ GatewayCall payload :: posts |}))
    ∧ gateway_calls posts = []
    ∧ (TP_WEBHOOK_URL cfg = "" → posts = [])
    ∧ (TP_WEBHOOK_URL cfg ≠ "" → posts = [HttpPost (TP_WEBHOOK_URL cfg) payload]).
Proof.
  unfold send_to_traderspost. run. cbn [truthy].
  destruct (String.eqb (TP_WEBHOOK_URL cfg) "") eqn:E; cbn [negb trace].
  - apply String.eqb_eq in E. eexists _, []. repeat split; auto. congruence.
  - apply String.eqb_neq in E.
    destruct (requests_post _ _ _) eqn:R;
      eexists _, [_]; (split; [intros; rewrite <- app_assoc; reflexivity|]);
      repeat split; auto; congruence.
Qed.

(** *** Runs of the two trade handlers *)

Lemma handle_exit_run ticker price time_str s k :
  hash_key ticker = Some k →
  ∃ result posts,
    (send_to_traderspost cfg (exit_payload ticker price) s).1 = Ok result
    ∧ gateway_calls posts = []
    ∧ ∀ E, handle_exit_for_ticker cfg ticker price time_str (with_EMA_STATE E s) =
        (Ok (reply_of result),
         {| EMA_STATE := E;
            LAST_TRADES := <[k := exit_record price time_str result]> (LAST_TRADES s);
            trace := trace s ++ GatewayCall (exit_payload ticker price) :: posts |}).
Proof.
  intros Hk. destruct s as [E0 L tr].
  destruct (send_to_traderspost_run (exit_payload ticker price) tr)
    as (result & posts & Hs & Hg & _).
  exists result, posts. rewrite Hs. repeat split; auto.
  intros E. unfold handle_exit_for_ticker, with_EMA_STATE. run. cbn.
  rewrite Hs. cbn. rewrite Hk. reflexivity.
Qed.

Lemma submit_entry_run ticker direction price above13 above200 info time_str s k :
  hash_key ticker = Some k →
  ∃ result posts,
    (send_to_traderspost cfg (entry_payload cfg ticker direction price) s).1 = Ok result
    ∧ gateway_calls posts = []
    ∧ submit_entry cfg ticker direction price above13 above200 info time_str s =
        (Ok (reply_of result),
         {| EMA_STATE := EMA_STATE s;
            LAST_TRADES :=
              <[k := entry_record direction price above13 above200 info time_str result]>
                (LAST_TRADES s);
            trace := trace s
                     ++ GatewayCall (entry_payload cfg ticker direction price) :: posts |}).
Proof.
  intros Hk. destruct s as [E L tr].
  destruct (send_to_traderspost_run (entry_payload cfg ticker direction price) tr)
    as (result & posts & Hs & Hg & _).
  exists result, posts. rewrite Hs. repeat split; auto.
  unfold submit_entry. run. rewrite Hs. cbn. rewrite Hk. reflexivity.
Qed.

Lemma entry_payload_action (ticker : val) direction (price : val) :
  dict_get "action" (entry_payload cfg ticker direction price) = Some (VStr direction).
Proof.
  unfold entry_payload.
  destruct (negb (is_none price)), (0 <? TP_DEFAULT_QTY cfg);
    rewrite ?dict_get_set_ne by discriminate; reflexivity.
Qed.

(** The two orders, field by field. *)
Lemma entry_payload_fields (ticker : val) direction (price : val) :
  entry_payload cfg ticker direction price
  = ([("ticker", ticker); ("action", VStr direction)]
     ++ (if 0 <? TP_DEFAULT_QTY cfg
         then [("quantity", VInt (TP_DEFAULT_QTY cfg))] else [])
     ++ (if is_none price then [] else [("price", price)]))%list.
Proof.
  unfold entry_payload. destruct (0 <? TP_DEFAULT_QTY cfg), price; reflexivity.
Qed.

Lemma exit_payload_fields (ticker price : val) :
  exit_payload ticker price
  = ([("ticker", ticker); ("action", VStr "exit")]
     ++ (if is_none price then [] else [("price", price)]))%list.
Proof. unfold exit_payload. destruct price; reflexivity. Qed.

(** The three ways [handle_new_trade_for_ticker] goes once the snapshot is
    found with both flags set to a [bool]. *)
Lemma handle_new_trade_flags ticker price time_str s k info (b13 b200 : bool) :
  hash_key ticker = Some k →
  EMA_STATE s !! k = Some info →
  dict_get "above13" info = Some (VBool b13) →
  dict_get "above200" info = Some (VBool b200) →
  handle_new_trade_for_ticker cfg ticker price time_str s =
    if b13 && b200 then
      submit_entry cfg ticker "buy" price (VBool b13) (VBool b200) info time_str s
    else if negb b13 && negb b200 then
      submit_entry cfg ticker "sell" price (VBool b13) (VBool b200) info time_str s
    else (Ok (skipped "ema_alignment_filter"), s).
Proof.
  intros Hk Hs H13 H200. unfold handle_new_trade_for_ticker. run.
  rewrite Hk. cbn. rewrite Hs.
  destruct info as [|e info]; [discriminate|]. cbn [truthy negb].
  unfold dict_get_or. rewrite H13, H200. cbn.
  destruct b13, b200; reflexivity.
Qed.

(** *** The update *)

Lemma update_run data s :
  let ticker := dict_get_or "ticker" VNone data in
  update_ema_state_from_json data s =
    if negb (truthy ticker) then (Ok tt, s)
    else match hash_key ticker with
         | Some k =>
             (Ok tt, {| EMA_STATE := <[k := ema_snapshot data]> (EMA_STATE s);
                        LAST_TRADES := LAST_TRADES s; trace := trace s |})
         | None => (Raise (unhashable ticker), s)
         end.
Proof.
  cbn. unfold update_ema_state_from_json, EMA_STATE_setitem.
  destruct (negb _); [reflexivity|]. destruct (hash_key _); reflexivity.
Qed.

Lemma flag_field_ignore_case (field : string) data :
  flag_field field data
  = eq_ignore_case (py_str (dict_get_or field (VStr "") data)) "true".
Proof.
  unfold flag_field.
  pose proof (str_lower_true (py_str (dict_get_or field (VStr "") data))) as Hl.
  destruct (String.eqb _ "true") eqn:E.
  - apply String.eqb_eq in E. symmetry. now apply Hl.
  - apply String.eqb_neq in E. destruct (eq_ignore_case _ _); auto.
    exfalso. apply E. now apply Hl.
Qed.

Lemma ema_snapshot_genuine data : genuine_flags (ema_snapshot data).
Proof. eexists _, _. split; reflexivity. Qed.

(** *** What each handler leaves alone *)

Lemma handle_exit_frame (ticker price time_str : val) s :
  let s' := (handle_exit_for_ticker cfg ticker price time_str s).2 in
  EMA_STATE s' = EMA_STATE s
  ∧ ∀ k, hash_key ticker ≠ Some k → LAST_TRADES s' !! k = LAST_TRADES s !! k.
Proof.
  destruct s as [E L tr]. cbn. unfold handle_exit_for_ticker.
  destruct (send_to_traderspost_run (exit_payload ticker price) tr)
    as (result & posts & Hs & _).
  run. rewrite Hs. cbn. destruct (hash_key ticker) as [hk|]; cbn; [|auto].
  split; [reflexivity|]. intros k Hne. apply lookup_insert_ne. congruence.
Qed.

Lemma submit_entry_frame (ticker : val) direction (price a13 a200 : val) info
    (time_str : val) s :
  let s' := (submit_entry cfg ticker direction price a13 a200 info time_str s).2 in
  EMA_STATE s' = EMA_STATE s
  ∧ ∀ k, hash_key ticker ≠ Some k → LAST_TRADES s' !! k = LAST_TRADES s !! k.
Proof.
  destruct s as [E L tr]. cbn. unfold submit_entry.
  destruct (send_to_traderspost_run (entry_payload cfg ticker direction price) tr)
    as (result & posts & Hs & _).
  run. rewrite Hs. cbn. destruct (hash_key ticker) as [hk|]; cbn; [|auto].
  split; [reflexivity|]. intros k Hne. apply lookup_insert_ne. congruence.
Qed.

Lemma handle_new_trade_frame (ticker price time_str : val) s :
  let s' := (handle_new_trade_for_ticker cfg ticker price time_str s).2 in
  EMA_STATE s' = EMA_STATE s
  ∧ ∀ k, hash_key ticker ≠ Some k → LAST_TRADES s' !! k = LAST_TRADES s !! k.
Proof.
  cbn. unfold handle_new_trade_for_ticker. run.
  destruct (hash_key ticker) as [hk|] eqn:Hk; cbn; [|auto].
  destruct (EMA_STATE s !! hk) as [info|]; [|auto].
  repeat (match goal with |- context [if ?b then _ else _] => destruct b end);
    auto; rewrite <- Hk; apply submit_entry_frame.
Qed.

Lemma update_frame data s :
  let s' := (update_ema_state_from_json data s).2 in
  LAST_TRADES s' = LAST_TRADES s
  ∧ ∀ k, hash_key (dict_get_or "ticker" VNone data) ≠ Some k →
         EMA_STATE s' !! k = EMA_STATE s !! k.
Proof.
  cbn. rewrite update_run. cbn.
  destruct (negb _); [auto|].
  destruct (hash_key _) as [hk|]; cbn; [|auto].
  split; [reflexivity|]. intros k Hne. apply lookup_insert_ne. congruence.
Qed.

(** Every request keeps the flags of every stored snapshot genuine. *)
Lemma serve_genuine s (r : request float) :
  (∀ k info, EMA_STATE s !! k = Some info → genuine_flags info) →
  ∀ k info, EMA_STATE (serve cfg s r) !! k = Some info → genuine_flags info.
Proof.
  intros Hinv.
  assert (∀ data k info,
    EMA_STATE (update_ema_state_from_json data s).2 !! k = Some info →
    genuine_flags info) as Hupd.
  { intros data k info. rewrite update_run. cbn.
    destruct (negb _); [apply Hinv|].
    destruct (hash_key _) as [hk|]; cbn; [|apply Hinv].
    destruct (decide (hk = k)) as [->|Hne].
    - rewrite lookup_insert_eq. intros [= <-]. apply ema_snapshot_genuine.
    - rewrite lookup_insert_ne by auto. apply Hinv. }
  destruct r as [data|t p ts|t p ts|secret body]; cbn [serve].
  - apply Hupd.
  - intros k info. rewrite (proj1 (handle_new_trade_frame t p ts s)). apply Hinv.
  - intros k info. rewrite (proj1 (handle_exit_frame t p ts s)). apply Hinv.
  - intros k info. unfold webhook.
    destruct (_ && _); [apply Hinv|].
    destruct (nonempty_dict _) as [data|].
    + destruct (py_eq_str _ _); [|apply Hinv].
      specialize (Hupd data k info). revert Hupd. run.
      destruct (update_ema_state_from_json data s) as [[[]|e] s']; auto.
    + destruct (truthy (VDict (parse_titan_new_trade body))).
      * pose proof (proj1 (handle_new_trade_frame
          (dict_get_or "ticker" VNone (parse_titan_new_trade body))
          (dict_get_or "price" VNone (parse_titan_new_trade body)) VNone s)) as Hf.
        revert Hf. run.
        destruct (handle_new_trade_for_ticker _ _ _ _ s) as [[res|e] s'];
          cbn; intros ->; apply Hinv.
      * destruct (truthy (VDict (parse_exit_signal body))); [|apply Hinv].
        pose proof (proj1 (handle_exit_frame
          (dict_get_or "ticker" VNone (parse_exit_signal body))
          (dict_get_or "price" VNone (parse_exit_signal body)) VNone s)) as Hf.
        revert Hf. run.
        destruct (handle_exit_for_ticker _ _ _ _ s) as [[res|e] s'];
          cbn; intros ->; apply Hinv.
Qed.

(** *** The claims *)

(** C1, as the code has it. With a stored snapshot whose flags are
    above13 = above200 = True the handler hands the gateway one order with
    action buy (the ticker, the quantity when TP_DEFAULT_QTY is positive, the
    price when there is one), writes under the ticker the record with
    last_event new_trade, direction buy, the price, the two flags, the
    snapshot, the time and the gateway's result, and returns ok and detail
    taken from that result, a dict without a direction; with both False it
    does the same with sell; with one True and one False it returns ok True
    with skipped = ema_alignment_filter and leaves the whole state as it
    was, so the gateway is not called and LAST_TRADES is unchanged. *)
Theorem handle_new_trade_alignment (ticker : string) (price time_str : val) s info
    (b13 b200 : bool) :
  EMA_STATE s !! KStr ticker = Some info →
  dict_get "above13" info = Some (VBool b13) →
  dict_get "above200" info = Some (VBool b200) →
  let out := handle_new_trade_for_ticker cfg (VStr ticker) price time_str s in
  let entered (direction : string) :=
    let order : dict :=
      ([("ticker", VStr ticker); ("action", VStr direction)]
       ++ (if 0 <? TP_DEFAULT_QTY cfg
           then [("quantity", VInt (TP_DEFAULT_QTY cfg))] else [])
       ++ (if is_none price then [] else [("price", price)]))%list in
    ∃ result posts,
      (send_to_traderspost cfg order s).1 = Ok result
      ∧ gateway_calls posts = []
      ∧ out = (Ok [("ok", dict_get_or "ok" (VBool false) result);
                   ("detail", VDict result)],
               {| EMA_STATE := EMA_STATE s;
                  LAST_TRADES :=
                    <[KStr ticker := [("last_event", VStr "new_trade");
                                      ("direction", VStr direction);
                                      ("price", price);
                                      ("ema13_above", VBool b13);
                                      ("ema200_above", VBool b200);
                                      ("ema_snapshot", VDict info);
                                      ("time", time_str);
                                      ("tp_result", VDict result)]]> (LAST_TRADES s);
                  trace := trace s ++ GatewayCall order :: posts |}) in
  match b13, b200 with
  | true, true => entered "buy"
  | false, false => entered "sell"
  | _, _ => out = (Ok [("ok", VBool true); ("skipped", VStr "ema_alignment_filter")], s)
  end.
Proof.
  intros Hs H13 H200 out entered. subst out entered.
  rewrite (handle_new_trade_flags _ _ _ _ (KStr ticker) info b13 b200) by auto.
  destruct b13, b200; cbn [andb negb]; try reflexivity.
  - cbv zeta. rewrite <- entry_payload_fields.
    destruct (submit_entry_run (VStr ticker) "buy" price (VBool true) (VBool true)
                info time_str s (KStr ticker) eq_refl) as (result & posts & Hr & Hg & ->).
    exists result, posts. auto.
  - cbv zeta. rewrite <- entry_payload_fields.
    destruct (submit_entry_run (VStr ticker) "sell" price (VBool false) (VBool false)
                info time_str s (KStr ticker) eq_refl) as (result & posts & Hr & Hg & ->).
    exists result, posts. auto.
Qed.

(** C2, as the code has it. Without a stored snapshot for the ticker the
    handler returns the skip reason no_ema_state and leaves the whole state
    as it was: the gateway is not called and LAST_TRADES is not written. *)
Theorem handle_new_trade_no_state (ticker : string) (price time_str : val) s :
  EMA_STATE s !! KStr ticker = None →
  handle_new_trade_for_ticker cfg (VStr ticker) price time_str s =
    (Ok (skipped "no_ema_state"), s).
Proof.
  intros Hs. unfold handle_new_trade_for_ticker. run. cbn. rewrite Hs. reflexivity.
Qed.

(** C3. For every ticker and optional price the exit handler calls the
    gateway with the payload ticker, action = exit, and price exactly when
    there is one (no quantity); it writes under the ticker the record with
    last_event exit, the price, the time and the gateway's result as
    tp_result, and returns ok and detail taken from that result; the reply,
    the record and the calls are the same whatever EMA_STATE holds, with or
    without a snapshot for the ticker, and EMA_STATE is left as it is. *)
Theorem handle_exit_always_submits (ticker : string) (price : option float)
    (time_str : val) (L : gmap (key float) dict) (tr : list (event float)) :
  let p := from_option VFloat VNone price in
  let payload : dict :=
    ([("ticker", VStr ticker); ("action", VStr "exit")]
     ++ match price with Some f => [("price", VFloat f)] | None => [] end)%list in
  exit_payload (VStr ticker) p = payload
  ∧ dict_get "quantity" payload = None
  ∧ ∃ result posts,
      gateway_calls posts = []
      ∧ ∀ E,
          let s := {| EMA_STATE := E; LAST_TRADES := L; trace := tr |} in
          (send_to_traderspost cfg payload s).1 = Ok result
          ∧ handle_exit_for_ticker cfg (VStr ticker) p time_str s =
              (Ok [("ok", dict_get_or "ok" (VBool false) result);
                   ("detail", VDict result)],
               {| EMA_STATE := E;
                  LAST_TRADES :=
                    <[KStr ticker := [("last_event", VStr "exit");
                                      ("price", p);
                                      ("time", time_str);
                                      ("tp_result", VDict result)]]> L;
                  trace := tr ++ GatewayCall payload :: posts |}).
Proof.
  intros p payload.
  assert (exit_payload (VStr ticker) p = payload) as Hp
    by (subst p payload; destruct price; reflexivity).
  split; [exact Hp|]. split; [subst payload; destruct price; reflexivity|].
  rewrite <- Hp.
  destruct (send_to_traderspost_run (exit_payload (VStr ticker) p) tr)
    as (result & posts & Hs & Hg & _).
  exists result, posts. split; [exact Hg|]. intros E s. subst s.
  rewrite Hs. split; [reflexivity|].
  unfold handle_exit_for_ticker. run. rewrite Hs. reflexivity.
Qed.

(** C4. An update whose ticker passes the check and can be a key returns
    normally and stores a snapshot in which above13 is True exactly when the
    text of the above13 field equals the word true up to letter case (False
    when the field is absent), likewise above200, and in which ema13,
    ema200 and close are what float gives on the field, or 0.0 when float
    raises or the field is absent. *)
Theorem update_stores_snapshot data s k :
  let ticker := dict_get_or "ticker" VNone data in
  let text (field : string) := py_str (dict_get_or field (VStr "") data) in
  let number (field : string) := dict_get_or field (VFloat float_zero) data in
  truthy ticker = true →
  hash_key ticker = Some k →
  ∃ info,
    update_ema_state_from_json data s =
      (Ok tt, {| EMA_STATE := <[k := info]> (EMA_STATE s);
                 LAST_TRADES := LAST_TRADES s; trace := trace s |})
    ∧ dict_get "above13" info = Some (VBool (eq_ignore_case (text "above13") "true"))
    ∧ dict_get "above200" info = Some (VBool (eq_ignore_case (text "above200") "true"))
    ∧ (dict_get "above13" data = None → dict_get "above13" info = Some (VBool false))
    ∧ (dict_get "above200" data = None → dict_get "above200" info = Some (VBool false))
    ∧ (∀ field, field ∈ ["ema13"; "ema200"; "close"] →
         dict_get field info
         = Some (VFloat (default float_zero (py_float (number field))))
         ∧ (dict_get field data = None →
            dict_get field info = Some (VFloat float_zero))).
Proof.
  intros ticker text number Ht Hk. exists (ema_snapshot data).
  rewrite update_run. fold ticker. rewrite Ht, Hk. cbn [negb].
  split; [reflexivity|]. unfold ema_snapshot. cbn [dict_get String.eqb Ascii.eqb Bool.eqb].
  rewrite !flag_field_ignore_case. fold (text "above13") (text "above200").
  split; [reflexivity|]. split; [reflexivity|].
  split; [|split].
  - intros Hn. subst text. cbn beta. unfold dict_get_or. rewrite Hn. reflexivity.
  - intros Hn. subst text. cbn beta. unfold dict_get_or. rewrite Hn. reflexivity.
  - intros field Hf. subst number. cbn beta.
    assert (field = "ema13" ∨ field = "ema200" ∨ field = "close") as Hcases.
    { rewrite !elem_of_cons in Hf. rewrite elem_of_nil in Hf. tauto. }
    assert (∀ f : string, float_field f data
              = default float_zero (py_float (dict_get_or f (VFloat float_zero) data)))
      as Hff by (intros f; unfold float_field; destruct (py_float _); reflexivity).
    assert (dict_get field data = None → float_field field data = float_zero) as Habs.
    { intros Hn. unfold float_field, dict_get_or. rewrite Hn. reflexivity. }
    destruct Hcases as [-> | [-> | ->]]; cbn [String.eqb Ascii.eqb Bool.eqb];
      (split; [rewrite <- Hff; reflexivity | intros Hn; rewrite (Habs Hn); reflexivity]).
Qed.

(** C5. Each time the exit handler runs, and each time the entry handler
    finds both flags equal, LAST_TRADES holds afterwards, under the ticker,
    the record of that very event and nothing of what was there before: for
    an exit, last_event exit with the price, the time and the result the
    gateway returned for the exit order as tp_result; for an entry,
    last_event new_trade with the direction, the price, the flags, the
    snapshot, the time and the result the gateway returned for the entry
    order as tp_result. This holds whatever was stored before and whatever
    the result is; when TP_WEBHOOK_URL is empty the result recorded is the
    failure ok = False, error = TP_WEBHOOK_URL not set. *)
Theorem ledger_overwritten (ticker : string) (price time_str : val) s :
  (∃ result,
     (send_to_traderspost cfg
        ([("ticker", VStr ticker); ("action", VStr "exit")]
         ++ (if is_none price then [] else [("price", price)]))%list s).1 = Ok result
     ∧ (TP_WEBHOOK_URL cfg = "" →
        result = [("ok", VBool false); ("error", VStr "TP_WEBHOOK_URL not set")])
     ∧ LAST_TRADES (handle_exit_for_ticker cfg (VStr ticker) price time_str s).2
         !! KStr ticker
       = Some [("last_event", VStr "exit");
               ("price", price);
               ("time", time_str);
               ("tp_result", VDict result)])
  ∧ ∀ info (b : bool),
      EMA_STATE s !! KStr ticker = Some info →
      dict_get "above13" info = Some (VBool b) →
      dict_get "above200" info = Some (VBool b) →
      let direction := if b then "buy" else "sell" in
      ∃ result,
        (send_to_traderspost cfg
           ([("ticker", VStr ticker); ("action", VStr direction)]
            ++ (if 0 <? TP_DEFAULT_QTY cfg
                then [("quantity", VInt (TP_DEFAULT_QTY cfg))] else [])
            ++ (if is_none price then [] else [("price", price)]))%list s).1
          = Ok result
        ∧ (TP_WEBHOOK_URL cfg = "" →
           result = [("ok", VBool false); ("error", VStr "TP_WEBHOOK_URL not set")])
        ∧ LAST_TRADES (handle_new_trade_for_ticker cfg (VStr ticker) price time_str s).2
            !! KStr ticker
          = Some [("last_event", VStr "new_trade");
                  ("direction", VStr direction);
                  ("price", price);
                  ("ema13_above", VBool b);
                  ("ema200_above", VBool b);
                  ("ema_snapshot", VDict info);
                  ("time", time_str);
                  ("tp_result", VDict result)].
Proof.
  assert (∀ payload result,
            (send_to_traderspost cfg payload s).1 = Ok result →
            TP_WEBHOOK_URL cfg = "" →
            result = [("ok", VBool false); ("error", VStr "TP_WEBHOOK_URL not set")])
    as Hfail.
  { intros payload result Hr Hu. revert Hr. unfold send_to_traderspost. run.
    cbn [truthy]. rewrite Hu. cbn. congruence. }
  split.
  - rewrite <- exit_payload_fields.
    destruct (handle_exit_run (VStr ticker) price time_str s (KStr ticker) eq_refl)
      as (result & posts & Hs & _ & Hrun).
    exists result. split; [exact Hs|]. split; [exact (Hfail _ _ Hs)|].
    specialize (Hrun (EMA_STATE s)). unfold with_EMA_STATE in Hrun.
    destruct s as [E L tr]. cbn in Hrun |- *. rewrite Hrun. cbn.
    apply lookup_insert_eq.
  - intros info b Hs H13 H200 direction.
    rewrite <- entry_payload_fields.
    rewrite (handle_new_trade_flags _ _ _ _ (KStr ticker) info b b) by auto.
    destruct (submit_entry_run (VStr ticker) direction price (VBool b) (VBool b)
                info time_str s (KStr ticker) eq_refl) as (result & posts & Hr & _ & Hrun).
    exists result. split; [exact Hr|]. split; [exact (Hfail _ _ Hr)|].
    subst direction. destruct b; cbn [andb negb]; rewrite Hrun; cbn;
      apply lookup_insert_eq.
Qed.

(** C6. In every state the process can reach, every stored snapshot has
    both flags present and of type bool, and the entry handler never
    returns the skip reason missing_ema_fields, for any ticker. *)
Theorem missing_fields_unreachable s :
  reachable cfg s →
  (∀ k info, EMA_STATE s !! k = Some info → genuine_flags info)
  ∧ ∀ ticker price time_str,
      (handle_new_trade_for_ticker cfg ticker price time_str s).1
      ≠ Ok (skipped "missing_ema_fields").
Proof.
  intros Hr.
  assert (∀ k info, EMA_STATE s !! k = Some info → genuine_flags info) as Hinv.
  { induction Hr as [|s r Hr IH].
    - intros k info. cbn. rewrite lookup_empty. discriminate.
    - now apply serve_genuine. }
  split; [exact Hinv|]. intros ticker price time_str.
  destruct (hash_key ticker) as [hk|] eqn:Hk.
  - destruct (EMA_STATE s !! hk) as [info|] eqn:Hs.
    + destruct (Hinv hk info Hs) as (b13 & b200 & H13 & H200).
      rewrite (handle_new_trade_flags _ _ _ _ hk info b13 b200) by auto.
      destruct (b13 && b200);
        [|destruct (negb b13 && negb b200); [|cbn; discriminate]].
      * destruct (submit_entry_run ticker "buy" price (VBool b13) (VBool b200)
                    info time_str s hk Hk) as (result & posts & _ & _ & ->).
        cbn. discriminate.
      * destruct (submit_entry_run ticker "sell" price (VBool b13) (VBool b200)
                    info time_str s hk Hk) as (result & posts & _ & _ & ->).
        cbn. discriminate.
    + unfold handle_new_trade_for_ticker. run. rewrite Hk. cbn. rewrite Hs.
      cbn. discriminate.
  - unfold handle_new_trade_for_ticker. run. rewrite Hk. cbn. discriminate.
Qed.

(** C7, as the code has it. The gateway always returns a dict and never
    raises; when TP_WEBHOOK_URL is empty the dict is ok = False with the
    error text TP_WEBHOOK_URL not set, and nothing is put on the network. *)
Theorem send_to_traderspost_returns payload s :
  let out := send_to_traderspost cfg payload s in
  (∃ result, out.1 = Ok result)
  ∧ (TP_WEBHOOK_URL cfg = "" →
     out.1 = Ok [("ok", VBool false); ("error", VStr "TP_WEBHOOK_URL not set")]
     ∧ http_posts (trace out.2) = http_posts (trace s)
     ∧ trace out.2 = (trace s ++ [GatewayCall payload])%list).
Proof.
  destruct s as [E L tr]. cbn zeta.
  destruct (send_to_traderspost_run payload tr) as (result & posts & Hs & _).
  split; [exists result; now rewrite Hs|].
  intros Hurl. unfold send_to_traderspost. run. rewrite Hurl. cbn.
  repeat split. clear. induction tr as [|[] tr IH]; cbn; congruence.
Qed.

(** C8. For a request that passes the secret check (no secret is
    configured, or the secret sent is the configured one) and whose body
    decodes to a non-empty dict whose type is not ema_update, the route
    answers 400 with ok False and the error text unknown json type followed
    by the text of the type, and leaves the whole state, EMA_STATE and
    LAST_TRADES included, as it was. *)
Theorem webhook_unknown_json_type (secret : option string) (raw_body : string) data s :
  secret_ok cfg secret →
  json_loads raw_body = Some (VDict data) →
  data ≠ [] →
  dict_get "type" data ≠ Some (VStr "ema_update") →
  webhook cfg secret raw_body s
  = (Ok ([("ok", VBool false);
          ("error", VStr ("unknown json type "
                          +:+ py_str (dict_get_or "type" VNone data)))], 400), s).
Proof.
  intros Hsec Hload Hne Htype.
  assert (py_eq_str (dict_get_or "type" VNone data) "ema_update" = false) as Hmt.
  { unfold dict_get_or.
    destruct (dict_get "type" data) as [[]|]; cbn; auto.
    apply String.eqb_neq. congruence. }
  assert (nonempty_dict (json_loads raw_body) = Some data) as Hnd.
  { rewrite Hload. destruct data; [contradiction|reflexivity]. }
  unfold webhook. cbn [truthy]. rewrite Hnd, Hmt.
  destruct (String.eqb (WEBHOOK_SECRET cfg) "") eqn:Es; cbn [negb andb].
  - reflexivity.
  - apply String.eqb_neq in Es.
    destruct Hsec as [He | ->]; [contradiction|].
    rewrite bool_decide_eq_true_2 by reflexivity. reflexivity.
Qed.

(** C9. The entry and exit handlers leave EMA_STATE as it is and change
    LAST_TRADES under the ticker's key at most; the update leaves
    LAST_TRADES as it is and changes EMA_STATE under the ticker's key at
    most. This holds whether the handler returns or raises. *)
Theorem handlers_frame (ticker price time_str : val) data s :
  let s1 := (handle_new_trade_for_ticker cfg ticker price time_str s).2 in
  let s2 := (handle_exit_for_ticker cfg ticker price time_str s).2 in
  let s3 := (update_ema_state_from_json data s).2 in
  (EMA_STATE s1 = EMA_STATE s
   ∧ ∀ k, hash_key ticker ≠ Some k → LAST_TRADES s1 !! k = LAST_TRADES s !! k)
  ∧ (EMA_STATE s2 = EMA_STATE s
     ∧ ∀ k, hash_key ticker ≠ Some k → LAST_TRADES s2 !! k = LAST_TRADES s !! k)
  ∧ (LAST_TRADES s3 = LAST_TRADES s
     ∧ ∀ k, hash_key (dict_get_or "ticker" VNone data) ≠ Some k →
            EMA_STATE s3 !! k = EMA_STATE s !! k).
Proof.
  cbn zeta. split; [|split].
  - apply handle_new_trade_frame.
  - apply handle_exit_frame.
  - apply update_frame.
Qed.

(** C10. An update whose message has no ticker returns normally and leaves
    the whole state, EMA_STATE included, as it was. *)
Theorem update_without_ticker data s :
  dict_get "ticker" data = None →
  update_ema_state_from_json data s = (Ok tt, s).
Proof.
  intros Hn. rewrite update_run. unfold dict_get_or. rewrite Hn. reflexivity.
Qed.

End Properties.

(** ** The properties on the example runtime *)

Import Example.

Lemma handle_new_trade_alignment_witness :
  EMA_STATE (with_trend aligned_up) !! KStr "MNQZ2025" = Some aligned_up
  ∧ dict_get "above13" aligned_up = Some (VBool true)
  ∧ dict_get "above200" aligned_up = Some (VBool true)
  ∧ ∃ result posts,
      (send_to_traderspost cfg
         [("ticker", VStr "MNQZ2025"); ("action", VStr "buy"); ("quantity", VInt 1);
          ("price", VFloat 21065)] (with_trend aligned_up)).1 = Ok result
      ∧ gateway_calls posts = []
      ∧ handle_new_trade_for_ticker cfg (VStr "MNQZ2025") (VFloat 21065) VNone
          (with_trend aligned_up) =
        (Ok [("ok", dict_get_or "ok" (VBool false) result); ("detail", VDict result)],
         {| EMA_STATE := EMA_STATE (with_trend aligned_up);
            LAST_TRADES :=
              <[KStr "MNQZ2025" := [("last_event", VStr "new_trade");
                                    ("direction", VStr "buy");
                                    ("price", VFloat 21065);
                                    ("ema13_above", VBool true);
                                    ("ema200_above", VBool true);
                                    ("ema_snapshot", VDict aligned_up);
                                    ("time", VNone);
                                    ("tp_result", VDict result)]]> ∅;
            trace := [] ++ GatewayCall [("ticker", VStr "MNQZ2025");
                                        ("action", VStr "buy");
                                        ("quantity", VInt 1);
                                        ("price", VFloat 21065)] :: posts |}).
Proof.
  assert (EMA_STATE (with_trend aligned_up) !! KStr "MNQZ2025" = Some aligned_up) as Hs
    by (vm_compute; reflexivity).
  split; [exact Hs|]. split; [reflexivity|]. split; [reflexivity|].
  exact (handle_new_trade_alignment cfg "MNQZ2025" (VFloat 21065) VNone
           (with_trend aligned_up) aligned_up true true Hs eq_refl eq_refl).
Defined.

(** C1 as the spec words it fails: the handler does not return the
    direction. What it returns for a buy and for a sell is the same dict,
    ok and detail of the gateway's result, with no direction in it. *)
Lemma handle_new_trade_reply_without_direction :
  ∃ reply,
    (handle_new_trade_for_ticker cfg (VStr "MNQZ2025") (VFloat 21065) VNone
       (with_trend aligned_up)).1 = Ok reply
    ∧ (handle_new_trade_for_ticker cfg (VStr "MNQZ2025") (VFloat 21065) VNone
         (with_trend aligned_down)).1 = Ok reply
    ∧ reply = [("ok", VBool true);
               ("detail", VDict [("ok", VBool true); ("status_code", VInt 200);
                                 ("body", VStr "ok")])]
    ∧ dict_get "direction" reply = None.
Proof.
  eexists. split; [vm_compute; reflexivity|].
  split; [vm_compute; reflexivity|]. split; reflexivity.
Qed.

Lemma handle_new_trade_no_state_witness :
  EMA_STATE (init (float := Z)) !! KStr "MNQZ2025" = None
  ∧ handle_new_trade_for_ticker cfg (VStr "MNQZ2025") (VFloat 21065) VNone init
    = (Ok (skipped "no_ema_state"), init).
Proof.
  split; [reflexivity|].
  apply (handle_new_trade_no_state cfg "MNQZ2025" (VFloat 21065) VNone init).
  reflexivity.
Defined.

(** C2 as the spec words it fails: the reason returned is not no_trend_state. *)
Lemma handle_new_trade_no_state_reason :
  (handle_new_trade_for_ticker cfg (VStr "MNQZ2025") (VFloat 21065) VNone init).1
  ≠ Ok (skipped "no_trend_state").
Proof. vm_compute. discriminate. Qed.

Lemma update_stores_snapshot_witness :
  truthy (dict_get_or "ticker" VNone ema_message) = true
  ∧ hash_key (dict_get_or "ticker" VNone ema_message) = Some (KStr "MNQZ2025")
  ∧ ∃ info,
      update_ema_state_from_json ema_message init =
        (Ok tt, {| EMA_STATE := <[KStr "MNQZ2025" := info]> ∅;
                   LAST_TRADES := ∅; trace := [] |})
      ∧ dict_get "above13" info = Some (VBool true)
      ∧ dict_get "above200" info = Some (VBool false)
      ∧ dict_get "ema13" info = Some (VFloat 21050)
      ∧ dict_get "ema200" info = Some (VFloat 0)
      ∧ dict_get "close" info = Some (VFloat 0).
Proof.
  split; [reflexivity|]. split; [reflexivity|].
  destruct (update_stores_snapshot ema_message init (KStr "MNQZ2025") eq_refl eq_refl)
    as (info & Hrun & H13 & H200 & _ & _ & Hnum).
  exists info. split; [exact Hrun|]. split; [exact H13|]. split; [exact H200|].
  split; [|split].
  - exact (proj1 (Hnum "ema13" ltac:(repeat constructor))).
  - exact (proj1 (Hnum "ema200" ltac:(repeat constructor))).
  - exact (proj1 (Hnum "close" ltac:(repeat constructor))).
Defined.

Lemma ledger_overwritten_witness :
  EMA_STATE traded !! KStr "MNQZ2025" = Some aligned_up
  ∧ dict_get "above13" aligned_up = Some (VBool true)
  ∧ dict_get "above200" aligned_up = Some (VBool true)
  ∧ LAST_TRADES traded !! KStr "MNQZ2025" = Some earlier_exit
  ∧ LAST_TRADES (handle_new_trade_for_ticker cfg_unset (VStr "MNQZ2025") VNone VNone
                   traded).2 !! KStr "MNQZ2025"
    = Some [("last_event", VStr "new_trade");
            ("direction", VStr "buy");
            ("price", VNone);
            ("ema13_above", VBool true);
            ("ema200_above", VBool true);
            ("ema_snapshot", VDict aligned_up);
            ("time", VNone);
            ("tp_result", VDict [("ok", VBool false);
                                 ("error", VStr "TP_WEBHOOK_URL not set")])].
Proof.
  assert (EMA_STATE traded !! KStr "MNQZ2025" = Some aligned_up) as Hs
    by (vm_compute; reflexivity).
  split; [exact Hs|]. split; [reflexivity|]. split; [reflexivity|].
  split; [vm_compute; reflexivity|].
  destruct (proj2 (ledger_overwritten cfg_unset "MNQZ2025" VNone VNone traded)
              aligned_up true Hs eq_refl eq_refl) as (result & _ & Hfail & HL).
  rewrite (Hfail eq_refl) in HL. exact HL.
Defined.

Lemma missing_fields_unreachable_witness :
  reachable cfg (serve cfg init (ReqUpdate ema_message))
  ∧ (handle_new_trade_for_ticker cfg (VStr "MNQZ2025") VNone VNone
       (serve cfg init (ReqUpdate ema_message))).1
    ≠ Ok (skipped "missing_ema_fields").
Proof.
  assert (reachable cfg (serve cfg init (ReqUpdate ema_message))) as Hr
    by (apply reachable_serve, reachable_init).
  split; [exact Hr|].
  exact (proj2 (missing_fields_unreachable cfg _ Hr) (VStr "MNQZ2025") VNone VNone).
Defined.

Lemma send_to_traderspost_returns_witness :
  TP_WEBHOOK_URL cfg_unset = ""
  ∧ (send_to_traderspost cfg_unset exit_order init).1
    = Ok [("ok", VBool false); ("error", VStr "TP_WEBHOOK_URL not set")]
  ∧ http_posts (trace (send_to_traderspost cfg_unset exit_order init).2) = [].
Proof.
  split; [reflexivity|].
  destruct (proj2 (send_to_traderspost_returns cfg_unset exit_order init) eq_refl)
    as (Hr & Hp & _).
  split; [exact Hr | exact Hp].
Defined.

(** C7 as the spec words it fails: the error text is not
    endpoint not configured. *)
Lemma send_to_traderspost_unset_text :
  (send_to_traderspost cfg_unset exit_order init).1
  ≠ Ok [("ok", VBool false); ("error", VStr "endpoint not configured")].
Proof. vm_compute. discriminate. Qed.

Lemma webhook_unknown_json_type_witness :
  secret_ok cfg (Some "s3cret")
  ∧ json_loads unknown_kind_body = Some (VDict [("type", VStr "unknown_kind")])
  ∧ [("type", VStr "unknown_kind")] ≠ ([] : pydict Z)
  ∧ dict_get "type" [("type", VStr "unknown_kind")] ≠ Some (VStr (float := Z) "ema_update")
  ∧ webhook cfg (Some "s3cret") unknown_kind_body (with_trend aligned_up)
    = (Ok ([("ok", VBool false); ("error", VStr "unknown json type unknown_kind")], 400),
       with_trend aligned_up).
Proof.
  assert (secret_ok cfg (Some "s3cret")) as Hsec by (right; reflexivity).
  assert ([("type", VStr "unknown_kind")] ≠ ([] : pydict Z)) as Hne by discriminate.
  assert (dict_get "type" [("type", VStr "unknown_kind")]
          ≠ Some (VStr (float := Z) "ema_update")) as Ht by (cbn; discriminate).
  assert (json_loads unknown_kind_body = Some (VDict [("type", VStr "unknown_kind")]))
    as Hl by reflexivity.
  split; [exact Hsec|]. split; [exact Hl|]. split; [exact Hne|]. split; [exact Ht|].
  exact (webhook_unknown_json_type cfg (Some "s3cret") unknown_kind_body
           [("type", VStr "unknown_kind")] (with_trend aligned_up) Hsec Hl Hne Ht).
Defined.

Lemma handlers_frame_witness :
  hash_key (VStr (float := Z) "MNQZ2025") ≠ Some (KStr "ESZ2025")
  ∧ EMA_STATE (handle_exit_for_ticker cfg (VStr "MNQZ2025") (VFloat 21040) VNone
                 (with_trend aligned_up)).2
    = EMA_STATE (with_trend aligned_up)
  ∧ LAST_TRADES (handle_exit_for_ticker cfg (VStr "MNQZ2025") (VFloat 21040) VNone
                   (with_trend aligned_up)).2 !! KStr "ESZ2025"
    = LAST_TRADES (with_trend aligned_up) !! KStr "ESZ2025".
Proof.
  assert (hash_key (VStr (float := Z) "MNQZ2025") ≠ Some (KStr "ESZ2025")) as Hne
    by (cbn; discriminate).
  split; [exact Hne|].
  destruct (handlers_frame cfg (VStr "MNQZ2025") (VFloat 21040) VNone ema_message
              (with_trend aligned_up)) as (_ & (HE & HL) & _).
  split; [exact HE | exact (HL _ Hne)].
Defined.

Lemma update_without_ticker_witness :
  dict_get "ticker" [("type", VStr (float := Z) "ema_update"); ("above13", VStr "true")] = None
  ∧ update_ema_state_from_json
      [("type", VStr "ema_update"); ("above13", VStr "true")] (with_trend aligned_up)
    = (Ok tt, with_trend aligned_up).
Proof.
  split; [reflexivity|].
  apply (update_without_ticker _ (with_trend aligned_up)). reflexivity.
Defined.

(** The route end to end: after an update with above13 = TRUE and no
    above200, an entry alert is answered 200 with the skip reason
    ema_alignment_filter and the state stays as the update left it. *)
Example webhook_misaligned_entry :
  let s1 := serve cfg init (ReqWebhook (Some "s3cret") ema_update_body) in
  EMA_STATE s1 !! KStr "MNQZ2025"
  = Some [("above13", VBool true); ("above200", VBool false);
          ("ema13", VFloat 0); ("ema200", VFloat 0); ("close", VFloat 0);
          ("time", VStr "")]
  ∧ webhook cfg (Some "s3cret") "MNQZ2025 New Trade Design , Price = 21065" s1
    = (Ok (skipped "ema_alignment_filter", 200), s1).
Proof. split; vm_compute; reflexivity. Qed.

(** ** Further properties of the update *)

Section UpdateProperties.
Context {float : Type} `{Countable float} {RT : PyRuntime float} {LB : Libs float}.
Context (cfg : config).

Abbreviation val := (value float).
Abbreviation dict := (pydict float).
Abbreviation st := (state float).

Implicit Types (s : st) (data info result payload : dict) (k : key float).

Ltac run :=
  cbv [mbind M_bind mret M_ret get_state raise emit http_post try_except
       EMA_STATE_get EMA_STATE_setitem LAST_TRADES_setitem]; cbn [fst snd].

(** X1. Applying the same update a second time returns the same way and
    leaves the state exactly as the first application left it. *)
Theorem update_idempotent data s :
  update_ema_state_from_json data (update_ema_state_from_json data s).2
  = update_ema_state_from_json data s.
Proof.
  rewrite !update_run. cbn zeta.
  destruct (negb _); [reflexivity|].
  destruct (hash_key _) as [k|]; [|reflexivity].
  cbn. now rewrite insert_insert_eq.
Qed.

(** X2. An update replaces the snapshot of its ticker whole: after an
    accepted update for a ticker, a second accepted update for the same
    ticker leaves the state a lone second update would, so no field of the
    first survives. *)
Theorem update_last_wins data1 data2 s k :
  truthy (dict_get_or "ticker" VNone data1) = true →
  truthy (dict_get_or "ticker" VNone data2) = true →
  hash_key (dict_get_or "ticker" VNone data1) = Some k →
  hash_key (dict_get_or "ticker" VNone data2) = Some k →
  update_ema_state_from_json data2 (update_ema_state_from_json data1 s).2
  = update_ema_state_from_json data2 s
  ∧ EMA_STATE (update_ema_state_from_json data2 (update_ema_state_from_json data1 s).2).2
      !! k = Some (ema_snapshot data2).
Proof.
  intros Ht1 Ht2 Hk1 Hk2. rewrite !update_run. cbn zeta.
  rewrite Ht1, Ht2, Hk1, Hk2. cbn. rewrite insert_insert_eq.
  split; [reflexivity|]. apply lookup_insert_eq.
Qed.

(** X3. Updates whose tickers are different keys commute: either order
    leaves the same state. *)
Theorem update_commute data1 data2 s k1 k2 :
  hash_key (dict_get_or "ticker" VNone data1) = Some k1 →
  hash_key (dict_get_or "ticker" VNone data2) = Some k2 →
  k1 ≠ k2 →
  (update_ema_state_from_json data2 (update_ema_state_from_json data1 s).2).2
  = (update_ema_state_from_json data1 (update_ema_state_from_json data2 s).2).2.
Proof.
  intros Hk1 Hk2 Hne. rewrite !update_run. cbn zeta. rewrite Hk1, Hk2.
  destruct (negb (truthy (dict_get_or "ticker" VNone data1)));
    destruct (negb (truthy (dict_get_or "ticker" VNone data2))); cbn; try reflexivity.
  f_equal. now apply insert_insert_ne.
Qed.

Lemma gateway_calls_app (tr1 tr2 : list (event float)) :
  gateway_calls (tr1 ++ tr2) = (gateway_calls tr1 ++ gateway_calls tr2)%list.
Proof. induction tr1 as [|[] tr1 IH]; cbn; congruence. Qed.

Lemma http_posts_app (tr1 tr2 : list (event float)) :
  http_posts (tr1 ++ tr2) = (http_posts tr1 ++ http_posts tr2)%list.
Proof. induction tr1 as [|[] tr1 IH]; cbn; congruence. Qed.

(** X4. An accepted update for a ticker followed by an entry alert for it:
    the alert is never skipped for want of state; it is skipped as
    ema_alignment_filter when exactly one of the message's two flags reads
    true, and otherwise one order goes to the gateway, buy when both read
    true and sell when neither does, and the record kept holds the snapshot
    the update stored. *)
Theorem update_then_entry data (t : string) (price time_str : val) s :
  dict_get "ticker" data = Some (VStr t) →
  t ≠ "" →
  let a13 := eq_ignore_case (py_str (dict_get_or "above13" (VStr "") data)) "true" in
  let a200 := eq_ignore_case (py_str (dict_get_or "above200" (VStr "") data)) "true" in
  let direction := if a13 then "buy" else "sell" in
  let s1 := (update_ema_state_from_json data s).2 in
  let out := handle_new_trade_for_ticker cfg (VStr t) price time_str s1 in
  (a13 ≠ a200 →
   out = (Ok [("ok", VBool true); ("skipped", VStr "ema_alignment_filter")], s1))
  ∧ (a13 = a200 →
     ∃ result,
       out.1 = Ok [("ok", dict_get_or "ok" (VBool false) result);
                   ("detail", VDict result)]
       ∧ gateway_calls (trace out.2)
         = (gateway_calls (trace s)
            ++ [[("ticker", VStr t); ("action", VStr direction)]
                ++ (if 0 <? TP_DEFAULT_QTY cfg
                    then [("quantity", VInt (TP_DEFAULT_QTY cfg))] else [])
                ++ (if is_none price then [] else [("price", price)])])%list
       ∧ LAST_TRADES out.2 !! KStr t
         = Some [("last_event", VStr "new_trade");
                 ("direction", VStr direction);
                 ("price", price);
                 ("ema13_above", VBool a13);
                 ("ema200_above", VBool a200);
                 ("ema_snapshot", VDict (ema_snapshot data));
                 ("time", time_str);
                 ("tp_result", VDict result)]).
Proof.
  intros Ht Hne a13 a200 direction s1 out.
  assert (s1 = {| EMA_STATE := <[KStr t := ema_snapshot data]> (EMA_STATE s);
                  LAST_TRADES := LAST_TRADES s; trace := trace s |}) as Hs1.
  { subst s1. rewrite update_run. cbn zeta. unfold dict_get_or. rewrite Ht. cbn.
    destruct (String.eqb t "") eqn:E; [apply String.eqb_eq in E; contradiction|].
    reflexivity. }
  assert (EMA_STATE s1 !! KStr t = Some (ema_snapshot data)) as Hl
    by (rewrite Hs1; cbn; apply lookup_insert_eq).
  assert (dict_get "above13" (ema_snapshot data) = Some (VBool a13)) as H13
    by (cbn; now rewrite flag_field_ignore_case).
  assert (dict_get "above200" (ema_snapshot data) = Some (VBool a200)) as H200
    by (cbn; now rewrite flag_field_ignore_case).
  subst out.
  rewrite (handle_new_trade_flags cfg (VStr t) price time_str s1 (KStr t)
             (ema_snapshot data) a13 a200 eq_refl Hl H13 H200).
  split.
  - intros Hd. destruct a13, a200; try reflexivity; contradiction.
  - intros He.
    destruct (submit_entry_run cfg (VStr t) direction price (VBool a13) (VBool a200)
                (ema_snapshot data) time_str s1 (KStr t) eq_refl)
      as (result & posts & _ & Hg & Hrun).
    exists result. rewrite <- (entry_payload_fields cfg).
    assert ((if a13 && a200 then
               submit_entry cfg (VStr t) "buy" price (VBool a13) (VBool a200)
                 (ema_snapshot data) time_str s1
             else if negb a13 && negb a200 then
               submit_entry cfg (VStr t) "sell" price (VBool a13) (VBool a200)
                 (ema_snapshot data) time_str s1
             else (Ok (skipped "ema_alignment_filter"), s1))
            = submit_entry cfg (VStr t) direction price (VBool a13) (VBool a200)
                (ema_snapshot data) time_str s1) as ->.
    { subst direction. rewrite <- He. destruct a13; reflexivity. }
    rewrite Hrun. cbn. split; [reflexivity|]. split.
    + rewrite gateway_calls_app. cbn. rewrite Hg, Hs1. reflexivity.
    + apply lookup_insert_eq.
Qed.

End UpdateProperties.

(** ** Steps of the handlers and of the route *)

Section Steps.
Context {float : Type} `{Countable float} {RT : PyRuntime float} {LB : Libs float}.
Context (cfg : config).

Abbreviation val := (value float).
Abbreviation dict := (pydict float).
Abbreviation st := (state float).

Implicit Types (s : st) (data info result payload : dict) (k : key float).

Ltac run :=
  cbv [mbind M_bind mret M_ret get_state raise emit http_post try_except
       EMA_STATE_get EMA_STATE_setitem LAST_TRADES_setitem]; cbn [fst snd].

(** The gateway's run in full: a well-shaped result, the call, and the one
    request when an endpoint is set. *)
Lemma send_to_traderspost_shape payload (tr : list (event float)) :
  ∃ result,
    gateway_shaped result
    ∧ ∀ E L, send_to_traderspost cfg payload
               {| EMA_STATE := E; LAST_TRADES := L; trace := tr |} =
             (Ok result,
              {| EMA_STATE := E; LAST_TRADES := L;
                 trace := tr ++ GatewayCall payload :: gateway_posts cfg payload |}).
Proof.
  unfold send_to_traderspost, gateway_posts. run. cbn [truthy].
  destruct (String.eqb (TP_WEBHOOK_URL cfg) "") eqn:E; cbn [negb trace].
  - eexists. split; [right; eexists; reflexivity|]. reflexivity.
  - destruct (requests_post _ _ _) eqn:R; eexists;
      (split; [|intros; rewrite <- app_assoc; reflexivity]).
    + left. eexists _, _, _. reflexivity.
    + right. eexists. reflexivity.
Qed.

Lemma handle_exit_step (ticker price time_str : val) s :
  ∃ result,
    gateway_shaped result
    ∧ handle_exit_for_ticker cfg ticker price time_str s =
        (match hash_key ticker with
         | Some _ => Ok (reply_of result)
         | None => Raise (unhashable ticker)
         end,
         {| EMA_STATE := EMA_STATE s;
            LAST_TRADES :=
              match hash_key ticker with
              | Some k => <[k := exit_record price time_str result]> (LAST_TRADES s)
              | None => LAST_TRADES s
              end;
            trace := trace s ++ GatewayCall (exit_payload ticker price)
                             :: gateway_posts cfg (exit_payload ticker price) |}).
Proof.
  destruct s as [E L tr].
  destruct (send_to_traderspost_shape (exit_payload ticker price) tr)
    as (result & Hshape & Hs).
  exists result. split; [exact Hshape|].
  unfold handle_exit_for_ticker. run. rewrite Hs. cbn.
  destruct (hash_key ticker); reflexivity.
Qed.

Lemma submit_entry_step (ticker : val) (direction : string) (price a13 a200 : val)
    info (time_str : val) s :
  ∃ result,
    gateway_shaped result
    ∧ submit_entry cfg ticker direction price a13 a200 info time_str s =
        (match hash_key ticker with
         | Some _ => Ok (reply_of result)
         | None => Raise (unhashable ticker)
         end,
         {| EMA_STATE := EMA_STATE s;
            LAST_TRADES :=
              match hash_key ticker with
              | Some k =>
                  <[k := entry_record direction price a13 a200 info time_str result]>
                    (LAST_TRADES s)
              | None => LAST_TRADES s
              end;
            trace := trace s ++ GatewayCall (entry_payload cfg ticker direction price)
                             :: gateway_posts cfg (entry_payload cfg ticker direction price) |}).
Proof.
  destruct s as [E L tr].
  destruct (send_to_traderspost_shape (entry_payload cfg ticker direction price) tr)
    as (result & Hshape & Hs).
  exists result. split; [exact Hshape|].
  unfold submit_entry. run. rewrite Hs. cbn.
  destruct (hash_key ticker); reflexivity.
Qed.

(** The entry handler either leaves the state alone, raising or returning
    a skip, or goes on to [submit_entry] with the flags it read. *)
Lemma handle_new_trade_step (ticker price time_str : val) s :
  (handle_new_trade_for_ticker cfg ticker price time_str s = (Raise (unhashable ticker), s)
   ∧ hash_key ticker = None)
  ∨ (∃ reason, handle_new_trade_for_ticker cfg ticker price time_str s
               = (Ok (skipped reason), s)
               ∧ is_Some (hash_key ticker))
  ∨ (∃ k info (direction : string),
       hash_key ticker = Some k
       ∧ EMA_STATE s !! k = Some info
       ∧ (direction = "buy"
          ∧ truthy (dict_get_or "above13" VNone info) = true
          ∧ truthy (dict_get_or "above200" VNone info) = true
          ∨ direction = "sell"
          ∧ truthy (dict_get_or "above13" VNone info) = false
          ∧ truthy (dict_get_or "above200" VNone info) = false)
       ∧ handle_new_trade_for_ticker cfg ticker price time_str s
         = submit_entry cfg ticker direction price
             (dict_get_or "above13" VNone info) (dict_get_or "above200" VNone info)
             info time_str s).
Proof.
  unfold handle_new_trade_for_ticker. run.
  destruct (hash_key ticker) as [k|] eqn:Hk; cbn; [|left; split; reflexivity].
  right.
  assert (∀ reason : string,
    (∃ reason', (Ok (skipped reason : dict), s) = (Ok (skipped reason'), s)
                ∧ is_Some (Some k))) as Hquiet
    by (intros reason; exists reason; split; [reflexivity | eexists; reflexivity]).
  destruct (EMA_STATE s !! k) as [info|] eqn:Hs; [|left; apply Hquiet].
  assert ((if negb (truthy (VDict info)) then true else false) = false
          ∨ info = []) as [Hne | ->]
    by (destruct info; [right|left]; reflexivity);
    [|left; apply Hquiet].
  cbn [truthy] in Hne |- *.
  destruct (negb match info with [] => false | _ => true end); [discriminate|].
  destruct (is_none _ || is_none _); [left; apply Hquiet|].
  destruct (truthy (dict_get_or "above13" VNone info)) eqn:T13;
    destruct (truthy (dict_get_or "above200" VNone info)) eqn:T200; cbn [andb negb].
  - right. exists k, info, "buy". auto 10.
  - left. apply Hquiet.
  - left. apply Hquiet.
  - right. exists k, info, "sell". auto 10.
Qed.

(** The tickers and prices the route hands over are those of the match. *)
Lemma parse_groups_fields (t p : string) :
  truthy (VDict (parse_groups (Some (t, p)))) = true
  ∧ dict_get_or "ticker" VNone (parse_groups (Some (t, p))) = VStr t
  ∧ dict_get_or "price" VNone (parse_groups (Some (t, p))) = price_value p.
Proof.
  unfold parse_groups, price_value. destruct (float_of_str p); repeat split.
Qed.

(** The route, branch by branch. *)
Lemma webhook_run (secret : option string) (raw_body : string) s :
  webhook cfg secret raw_body s =
    if truthy (VStr (WEBHOOK_SECRET cfg))
       && negb (bool_decide (secret = Some (WEBHOOK_SECRET cfg))) then
      (Ok ([("ok", VBool false); ("error", VStr "invalid secret")], 403), s)
    else
      match nonempty_dict (json_loads raw_body) with
      | Some data =>
          if py_eq_str (dict_get_or "type" VNone data) "ema_update" then
            match update_ema_state_from_json data s with
            | (Ok _, s') => (Ok ([("ok", VBool true)], 200), s')
            | (Raise e, s') => (Raise e, s')
            end
          else
            (Ok ([("ok", VBool false);
                  ("error", VStr ("unknown json type "
                                  +:+ py_str (dict_get_or "type" VNone data)))], 400), s)
      | None =>
          match TITAN_RE_search raw_body with
          | Some (t, p) =>
              match handle_new_trade_for_ticker cfg (VStr t) (price_value p) VNone s with
              | (Ok result, s') => (Ok (result, status_of result), s')
              | (Raise e, s') => (Raise e, s')
              end
          | None =>
              match EXIT_RE_search raw_body with
              | Some (t, p) =>
                  match handle_exit_for_ticker cfg (VStr t) (price_value p) VNone s with
                  | (Ok result, s') => (Ok (result, status_of result), s')
                  | (Raise e, s') => (Raise e, s')
                  end
              | None =>
                  (Ok ([("ok", VBool false); ("error", VStr "unrecognized payload")], 400),
                   s)
              end
          end
      end.
Proof.
  unfold webhook. destruct (_ && _); [reflexivity|].
  destruct (nonempty_dict _) as [data|].
  - destruct (py_eq_str _ _); [|reflexivity]. run.
    destruct (update_ema_state_from_json data s) as [[[]|e] s']; reflexivity.
  - unfold parse_titan_new_trade, parse_exit_signal. cbv zeta.
    destruct (TITAN_RE_search raw_body) as [[t p]|].
    + destruct (parse_groups_fields t p) as (-> & -> & ->). run.
      destruct (handle_new_trade_for_ticker _ _ _ _ s) as [[r|e] s']; reflexivity.
    + change (truthy (VDict (parse_groups (float := float) None))) with false.
      cbv iota.
      destruct (EXIT_RE_search raw_body) as [[t p]|]; [|reflexivity].
      destruct (parse_groups_fields t p) as (-> & -> & ->). run.
      destruct (handle_exit_for_ticker _ _ _ _ s) as [[r|e] s']; reflexivity.
Qed.

Lemma nonempty_dict_none (o : option val) :
  (∀ d, o = Some (VDict d) → d = []) → nonempty_dict o = None.
Proof.
  intros Hd. destruct o as [[| | | | | |[|e d]]|]; try reflexivity.
  discriminate (Hd _ eq_refl).
Qed.

Lemma nonempty_dict_some (o : option val) data :
  o = Some (VDict data) → data ≠ [] → nonempty_dict o = Some data.
Proof. intros -> Hne. destruct data; [contradiction|reflexivity]. Qed.

Lemma secret_ok_check (secret : option string) :
  secret_ok cfg secret →
  truthy (VStr (WEBHOOK_SECRET cfg))
  && negb (bool_decide (secret = Some (WEBHOOK_SECRET cfg))) = false.
Proof.
  intros [Hs | Hs]; cbn.
  - rewrite Hs. reflexivity.
  - rewrite bool_decide_eq_true_2 by exact Hs. apply andb_false_r.
Qed.

Lemma gateway_shaped_ok result :
  gateway_shaped result →
  ∃ ok : bool, dict_get "ok" result = Some (VBool ok)
               ∧ dict_get "ok" (reply_of result) = Some (VBool ok)
               ∧ status_of (reply_of result) = if ok then 200 else 500.
Proof.
  intros [(ok & sc & body & ->) | (e & ->)]; eexists; cbn;
    (split; [reflexivity|]); (split; [reflexivity|]);
    try destruct ok; reflexivity.
Qed.

(** A trade handler called with a [str] ticker returns a reply whose ok is
    a [bool]; the status the route derives from it is 200 or 500 by it. *)
Lemma handle_new_trade_str_reply (t : string) (price time_str : val) s :
  ∃ reply (ok : bool) s',
    handle_new_trade_for_ticker cfg (VStr t) price time_str s = (Ok reply, s')
    ∧ dict_get "ok" reply = Some (VBool ok)
    ∧ status_of reply = if ok then 200 else 500.
Proof.
  destruct (handle_new_trade_step (VStr t) price time_str s)
    as [[_ Hk] | [(reason & -> & _) | (k & info & d & Hk & _ & _ & ->)]].
  - discriminate.
  - exists (skipped reason), true, s. repeat split.
  - destruct (submit_entry_step (VStr t) d price (dict_get_or "above13" VNone info)
                (dict_get_or "above200" VNone info) info time_str s)
      as (result & Hshape & ->).
    destruct (gateway_shaped_ok result Hshape) as (ok & _ & Hok & Hst).
    cbn [hash_key]. eexists _, ok, _. split; [reflexivity|]. split; assumption.
Qed.

Lemma handle_exit_str_reply (t : string) (price time_str : val) s :
  ∃ result (ok : bool),
    gateway_shaped result
    ∧ dict_get "ok" result = Some (VBool ok)
    ∧ status_of (reply_of result) = (if ok then 200 else 500)
    ∧ handle_exit_for_ticker cfg (VStr t) price time_str s =
        (Ok (reply_of result),
         {| EMA_STATE := EMA_STATE s;
            LAST_TRADES := <[KStr t := exit_record price time_str result]> (LAST_TRADES s);
            trace := trace s ++ GatewayCall (exit_payload (VStr t) price)
                             :: gateway_posts cfg (exit_payload (VStr t) price) |}).
Proof.
  destruct (handle_exit_step (VStr t) price time_str s) as (result & Hshape & Hrun).
  destruct (gateway_shaped_ok result Hshape) as (ok & Hok & _ & Hst).
  exists result, ok. repeat split; assumption.
Qed.

Lemma nonempty_dict_inv (o : option val) data :
  nonempty_dict o = Some data → o = Some (VDict data) ∧ data ≠ [].
Proof.
  destruct o as [[| | | | | |[|e d]]|]; try discriminate.
  intros [= <-]. split; [reflexivity|discriminate].
Qed.

Lemma secret_check_ok (secret : option string) :
  truthy (VStr (WEBHOOK_SECRET cfg))
  && negb (bool_decide (secret = Some (WEBHOOK_SECRET cfg))) = false →
  secret_ok cfg secret.
Proof.
  cbn. intros [Hs | Hs]%andb_false_iff.
  - left. apply negb_false_iff, String.eqb_eq in Hs. exact Hs.
  - right. apply negb_false_iff, bool_decide_eq_true in Hs. exact Hs.
Qed.

Lemma py_eq_str_true (v : val) (lit : string) :
  py_eq_str v lit = true → v = VStr lit.
Proof.
  destruct v; try discriminate. cbn. intros E%String.eqb_eq. now subst.
Qed.

Lemma dict_get_or_none_inv (key : string) (v : val) data :
  dict_get_or key VNone data = v → v ≠ VNone → dict_get key data = Some v.
Proof.
  unfold dict_get_or. destruct (dict_get key data); cbn; intros <- Hv;
    [reflexivity | contradiction].
Qed.

End Steps.

(** ** Properties of the route *)

Section RouteProperties.
Context {float : Type} `{Countable float} {RT : PyRuntime float} {LB : Libs float}.
Context (cfg : config).

Abbreviation val := (value float).
Abbreviation dict := (pydict float).
Abbreviation st := (state float).

Implicit Types (s : st) (data info result payload : dict) (k : key float).

(** X5. With a secret configured, a request that sends another secret or
    none is answered 403 invalid secret whatever its body is, and the state
    is left as it was; with no secret configured the secret sent is never
    looked at. *)
Theorem webhook_secret_gate (secret : option string) (raw_body : string) s :
  (WEBHOOK_SECRET cfg ≠ "" → secret ≠ Some (WEBHOOK_SECRET cfg) →
   webhook cfg secret raw_body s
   = (Ok ([("ok", VBool false); ("error", VStr "invalid secret")], 403), s))
  ∧ (WEBHOOK_SECRET cfg = "" →
     ∀ secret', webhook cfg secret raw_body s = webhook cfg secret' raw_body s).
Proof.
  split.
  - intros Hs Hne. rewrite webhook_run. cbn [truthy].
    apply String.eqb_neq in Hs. rewrite Hs.
    rewrite bool_decide_eq_false_2 by exact Hne. reflexivity.
  - intros Hs secret'. rewrite !webhook_run. cbn [truthy]. rewrite Hs. reflexivity.
Qed.

(** X6. An ema_update that passes the secret check is answered 200 ok both
    when its ticker is a non-empty string, in which case the snapshot is
    stored under it and nothing else changes, and when the ticker is
    missing, empty or otherwise false, in which case nothing is stored. *)
Theorem webhook_ema_update_acknowledged (secret : option string) (raw_body : string)
    data s :
  secret_ok cfg secret →
  json_loads raw_body = Some (VDict data) →
  dict_get "type" data = Some (VStr "ema_update") →
  (∀ t : string, dict_get "ticker" data = Some (VStr t) → t ≠ "" →
     webhook cfg secret raw_body s
     = (Ok ([("ok", VBool true)], 200),
        {| EMA_STATE := <[KStr t := ema_snapshot data]> (EMA_STATE s);
           LAST_TRADES := LAST_TRADES s; trace := trace s |}))
  ∧ (truthy (dict_get_or "ticker" VNone data) = false →
     webhook cfg secret raw_body s = (Ok ([("ok", VBool true)], 200), s)).
Proof.
  intros Hsec Hload Htype.
  assert (data ≠ []) as Hne by (intros ->; discriminate).
  assert (webhook cfg secret raw_body s =
            match update_ema_state_from_json data s with
            | (Ok _, s') => (Ok ([("ok", VBool true)], 200), s')
            | (Raise e, s') => (Raise e, s')
            end) as Hrun.
  { rewrite webhook_run, (secret_ok_check cfg secret Hsec).
    rewrite (nonempty_dict_some _ data Hload Hne).
    unfold dict_get_or at 1. rewrite Htype. reflexivity. }
  split.
  - intros t Ht Hnt. rewrite Hrun, update_run. cbn zeta.
    unfold dict_get_or. rewrite Ht. cbn.
    destruct (String.eqb t "") eqn:E; [apply String.eqb_eq in E; contradiction|].
    reflexivity.
  - intros Hf. rewrite Hrun, update_run. cbn zeta. rewrite Hf. reflexivity.
Qed.

(** X7. The route raises in one case only: an ema_update, past the secret
    check, whose ticker passes the truthiness test and cannot be a
    dictionary key, that is a non-empty list or object. It then raises the
    TypeError of the assignment at line 80 and leaves the state as it was.
    Every other request is answered. *)
Theorem webhook_raises_on_unhashable_ticker_only (secret : option string)
    (raw_body : string) s :
  (∀ e, (webhook cfg secret raw_body s).1 = Raise e →
     secret_ok cfg secret
     ∧ (webhook cfg secret raw_body s).2 = s
     ∧ ∃ data ticker,
         json_loads raw_body = Some (VDict data)
         ∧ dict_get "type" data = Some (VStr "ema_update")
         ∧ dict_get "ticker" data = Some ticker
         ∧ truthy ticker = true
         ∧ hash_key ticker = None
         ∧ e = unhashable ticker)
  ∧ (∀ data ticker,
       secret_ok cfg secret →
       json_loads raw_body = Some (VDict data) →
       dict_get "type" data = Some (VStr "ema_update") →
       dict_get "ticker" data = Some ticker →
       truthy ticker = true →
       hash_key ticker = None →
       webhook cfg secret raw_body s = (Raise (unhashable ticker), s)).
Proof.
  split.
  - intros e. rewrite webhook_run.
    destruct (_ && _) eqn:Hsec; [discriminate|].
    apply secret_check_ok in Hsec.
    destruct (nonempty_dict _) as [data|] eqn:Hd.
    + apply nonempty_dict_inv in Hd as [Hload Hne].
      destruct (py_eq_str _ _) eqn:Ht; [|discriminate].
      apply py_eq_str_true in Ht. apply dict_get_or_none_inv in Ht; [|discriminate].
      rewrite update_run. cbn zeta.
      destruct (negb (truthy _)) eqn:Htr; [discriminate|].
      destruct (hash_key _) eqn:Hk; [discriminate|].
      cbn. intros [= <-]. split; [exact Hsec|]. split; [reflexivity|].
      exists data, (dict_get_or "ticker" VNone data).
      repeat split; auto.
      * apply dict_get_or_none_inv; [reflexivity|].
        intros Hn. rewrite Hn in Htr. discriminate.
      * now apply negb_false_iff in Htr.
    + destruct (TITAN_RE_search raw_body) as [[t p]|].
      * destruct (handle_new_trade_str_reply cfg t (price_value p) VNone s)
          as (reply & ok & s' & -> & _). discriminate.
      * destruct (EXIT_RE_search raw_body) as [[t p]|]; [|discriminate].
        destruct (handle_exit_str_reply cfg t (price_value p) VNone s)
          as (result & ok & _ & _ & _ & ->). discriminate.
  - intros data ticker Hsec Hload Htype Htick Htr Hk.
    assert (data ≠ []) as Hne by (intros ->; discriminate).
    rewrite webhook_run, (secret_ok_check cfg secret Hsec).
    rewrite (nonempty_dict_some _ data Hload Hne).
    unfold dict_get_or at 1. rewrite Htype. cbn [default].
    change (py_eq_str (VStr (float := float) "ema_update") "ema_update") with true.
    cbv iota. rewrite update_run. cbn zeta.
    unfold dict_get_or. rewrite Htick.
    change (default VNone (Some ticker)) with ticker. rewrite Htr, Hk. reflexivity.
Qed.

(** X8. A body that decodes to a non-empty JSON object never trades: for
    every secret and every content, no call is made to the gateway or to the
    network and LAST_TRADES is left as it was. *)
Theorem webhook_structured_never_trades (secret : option string) (raw_body : string)
    data s :
  json_loads raw_body = Some (VDict data) →
  data ≠ [] →
  LAST_TRADES (webhook cfg secret raw_body s).2 = LAST_TRADES s
  ∧ trace (webhook cfg secret raw_body s).2 = trace s.
Proof.
  intros Hload Hne. rewrite webhook_run.
  destruct (_ && _); [auto|].
  rewrite (nonempty_dict_some _ data Hload Hne).
  destruct (py_eq_str _ _); [|auto].
  rewrite update_run. cbn zeta.
  destruct (negb _); [auto|]. destruct (hash_key _); auto.
Qed.

(** X9. A text body in which the New Trade pattern matches is handled as an
    entry for the matched ticker, with the float of the matched price (no
    price when float rejects the text) and no time, whether or not the exit
    pattern matches too. The route never raises on it; it answers the
    handler's reply, whose ok is a bool, with status 200 when ok is True,
    every skip included, and 500 when it is False. *)
Theorem webhook_entry_alert (secret : option string) (raw_body t p : string) s :
  secret_ok cfg secret →
  (∀ d, json_loads raw_body = Some (VDict d) → d = []) →
  TITAN_RE_search raw_body = Some (t, p) →
  ∃ reply (ok : bool) s',
    handle_new_trade_for_ticker cfg (VStr t) (price_value p) VNone s = (Ok reply, s')
    ∧ dict_get "ok" reply = Some (VBool ok)
    ∧ webhook cfg secret raw_body s = (Ok (reply, if ok then 200 else 500), s').
Proof.
  intros Hsec Hjson Hm.
  destruct (handle_new_trade_str_reply cfg t (price_value p) VNone s)
    as (reply & ok & s' & Hrun & Hok & Hst).
  exists reply, ok, s'. split; [exact Hrun|]. split; [exact Hok|].
  rewrite webhook_run, (secret_ok_check cfg secret Hsec).
  rewrite (nonempty_dict_none _ Hjson), Hm, Hrun, Hst. reflexivity.
Qed.

(** X10. A text body in which the New Trade pattern does not match and the
    exit pattern does always reaches the gateway: one call with the exit
    order for the matched ticker, the record written under the ticker, and
    the reply answered with status 200 when the gateway's ok is True and 500
    when it is False. *)
Theorem webhook_exit_alert (secret : option string) (raw_body t p : string) s :
  secret_ok cfg secret →
  (∀ d, json_loads raw_body = Some (VDict d) → d = []) →
  TITAN_RE_search raw_body = None →
  EXIT_RE_search raw_body = Some (t, p) →
  let order : dict :=
    ([("ticker", VStr t); ("action", VStr "exit")]
     ++ (if is_none (price_value p) then [] else [("price", price_value p)]))%list in
  ∃ result (ok : bool),
    gateway_shaped result
    ∧ dict_get "ok" result = Some (VBool ok)
    ∧ webhook cfg secret raw_body s =
        (Ok ([("ok", dict_get_or "ok" (VBool false) result); ("detail", VDict result)],
             if ok then 200 else 500),
         {| EMA_STATE := EMA_STATE s;
            LAST_TRADES :=
              <[KStr t := [("last_event", VStr "exit");
                           ("price", price_value p);
                           ("time", VNone);
                           ("tp_result", VDict result)]]> (LAST_TRADES s);
            trace := trace s ++ GatewayCall order :: gateway_posts cfg order |}).
Proof.
  intros Hsec Hjson Hm He order. subst order.
  rewrite <- (exit_payload_fields (VStr t) (price_value p)).
  destruct (handle_exit_str_reply cfg t (price_value p) VNone s)
    as (result & ok & Hshape & Hok & Hst & Hrun).
  exists result, ok. split; [exact Hshape|]. split; [exact Hok|].
  rewrite webhook_run, (secret_ok_check cfg secret Hsec).
  rewrite (nonempty_dict_none _ Hjson), Hm, He, Hrun, Hst. reflexivity.
Qed.

(** X11. A body that is not a non-empty JSON object (not JSON at all, or
    JSON for a list, a number, a string, null or the empty object) and in
    which neither pattern matches is answered 400 unrecognized payload, and
    the state is left as it was. *)
Theorem webhook_unrecognized (secret : option string) (raw_body : string) s :
  secret_ok cfg secret →
  (∀ d, json_loads raw_body = Some (VDict d) → d = []) →
  TITAN_RE_search raw_body = None →
  EXIT_RE_search raw_body = None →
  webhook cfg secret raw_body s
  = (Ok ([("ok", VBool false); ("error", VStr "unrecognized payload")], 400), s).
Proof.
  intros Hsec Hjson Hm He.
  rewrite webhook_run, (secret_ok_check cfg secret Hsec).
  rewrite (nonempty_dict_none _ Hjson), Hm, He. reflexivity.
Qed.

End RouteProperties.

(** ** Invariants of the reachable states *)

Section Invariants.
Context {float : Type} `{Countable float} {RT : PyRuntime float} {LB : Libs float}.
Context (cfg : config).
Local Open Scope list_scope.

Abbreviation val := (value float).
Abbreviation dict := (pydict float).
Abbreviation st := (state float).

Implicit Types (s : st) (data info result payload : dict) (k : key float).

(** What a request can do to EMA_STATE: nothing, or store the snapshot of a
    message under the key of its ticker, which passed the truthiness test. *)
Lemma serve_EMA_STATE s (r : request float) :
  EMA_STATE (serve cfg s r) = EMA_STATE s
  ∨ ∃ data k,
      truthy (dict_get_or "ticker" VNone data) = true
      ∧ hash_key (dict_get_or "ticker" VNone data) = Some k
      ∧ EMA_STATE (serve cfg s r) = <[k := ema_snapshot data]> (EMA_STATE s).
Proof.
  assert (∀ data,
    EMA_STATE (update_ema_state_from_json data s).2 = EMA_STATE s
    ∨ ∃ k,
        truthy (dict_get_or "ticker" VNone data) = true
        ∧ hash_key (dict_get_or "ticker" VNone data) = Some k
        ∧ EMA_STATE (update_ema_state_from_json data s).2
          = <[k := ema_snapshot data]> (EMA_STATE s)) as Hupd.
  { intros data. rewrite update_run. cbn zeta.
    destruct (negb _) eqn:Ht; [left; reflexivity|].
    destruct (hash_key _) as [k|] eqn:Hk; [|left; reflexivity].
    right. exists k. apply negb_false_iff in Ht. auto. }
  destruct r as [data|t p ts|t p ts|secret body]; cbn [serve].
  - destruct (Hupd data) as [He | (k & Hk)]; eauto.
  - left. apply (handle_new_trade_frame cfg t p ts s).
  - left. apply (handle_exit_frame cfg t p ts s).
  - rewrite webhook_run. destruct (_ && _); [left; reflexivity|].
    destruct (nonempty_dict _) as [data|].
    + destruct (py_eq_str _ _); [|left; reflexivity].
      destruct (Hupd data) as [He | (k & Ht & Hk & He)];
        destruct (update_ema_state_from_json data s) as [[[]|e] s'];
        cbn in He |- *; [left; exact He | left; exact He | | ];
        right; exists data, k; auto.
    + destruct (TITAN_RE_search body) as [[t p]|].
      * left. pose proof (proj1 (handle_new_trade_frame cfg (VStr t) (price_value p)
                                   VNone s)) as Hf.
        destruct (handle_new_trade_for_ticker _ _ _ _ s) as [[]]; exact Hf.
      * destruct (EXIT_RE_search body) as [[t p]|]; [|left; reflexivity].
        left. pose proof (proj1 (handle_exit_frame cfg (VStr t) (price_value p)
                                   VNone s)) as Hf.
        destruct (handle_exit_for_ticker _ _ _ _ s) as [[]]; exact Hf.
Qed.

(** What a request can do to LAST_TRADES and to the trace: nothing, or one
    gateway call, with its request when an endpoint is set, and the record
    of that exit or entry under the ticker. *)
Lemma serve_trades s (r : request float) :
  (LAST_TRADES (serve cfg s r) = LAST_TRADES s ∧ trace (serve cfg s r) = trace s)
  ∨ ∃ (ticker : val) payload result (rec : dict),
      gateway_shaped result
      ∧ trace (serve cfg s r)
        = trace s ++ GatewayCall payload :: gateway_posts cfg payload
      ∧ LAST_TRADES (serve cfg s r)
        = match hash_key ticker with
          | Some k => <[k := rec]> (LAST_TRADES s)
          | None => LAST_TRADES s
          end
      ∧ ((∃ price time_str : val,
            payload = exit_payload ticker price
            ∧ rec = exit_record price time_str result)
         ∨ (∃ k info (direction : string) (price time_str : val),
              hash_key ticker = Some k
              ∧ EMA_STATE s !! k = Some info
              ∧ (direction = "buy"
                 ∧ truthy (dict_get_or "above13" VNone info) = true
                 ∧ truthy (dict_get_or "above200" VNone info) = true
                 ∨ direction = "sell"
                 ∧ truthy (dict_get_or "above13" VNone info) = false
                 ∧ truthy (dict_get_or "above200" VNone info) = false)
              ∧ payload = entry_payload cfg ticker direction price
              ∧ rec = entry_record direction price
                        (dict_get_or "above13" VNone info)
                        (dict_get_or "above200" VNone info) info time_str result)).
Proof.
  set (quiet (s' : st) := LAST_TRADES s' = LAST_TRADES s ∧ trace s' = trace s).
  set (trade (s' : st) := ∃ (ticker : val) payload result (rec : dict),
      gateway_shaped result
      ∧ trace s' = trace s ++ GatewayCall payload :: gateway_posts cfg payload
      ∧ LAST_TRADES s'
        = match hash_key ticker with
          | Some k => <[k := rec]> (LAST_TRADES s)
          | None => LAST_TRADES s
          end
      ∧ ((∃ price time_str : val,
            payload = exit_payload ticker price
            ∧ rec = exit_record price time_str result)
         ∨ (∃ k info (direction : string) (price time_str : val),
              hash_key ticker = Some k
              ∧ EMA_STATE s !! k = Some info
              ∧ (direction = "buy"
                 ∧ truthy (dict_get_or "above13" VNone info) = true
                 ∧ truthy (dict_get_or "above200" VNone info) = true
                 ∨ direction = "sell"
                 ∧ truthy (dict_get_or "above13" VNone info) = false
                 ∧ truthy (dict_get_or "above200" VNone info) = false)
              ∧ payload = entry_payload cfg ticker direction price
              ∧ rec = entry_record direction price
                        (dict_get_or "above13" VNone info)
                        (dict_get_or "above200" VNone info) info time_str result))).
  assert (∀ data, quiet (update_ema_state_from_json data s).2) as Hupd.
  { intros data. rewrite update_run. cbn zeta.
    destruct (negb _); [split; reflexivity|].
    destruct (hash_key _); split; reflexivity. }
  assert (∀ t p ts, quiet (handle_new_trade_for_ticker cfg t p ts s).2
                    ∨ trade (handle_new_trade_for_ticker cfg t p ts s).2) as Hnew.
  { intros t p ts.
    destruct (handle_new_trade_step cfg t p ts s)
      as [[-> _] | [(reason & -> & _) | (k & info & d & Hk & Hs & Hd & ->)]];
      [left; split; reflexivity | left; split; reflexivity |].
    right.
    destruct (submit_entry_step cfg t d p (dict_get_or "above13" VNone info)
                (dict_get_or "above200" VNone info) info ts s)
      as (result & Hshape & ->).
    exists t, (entry_payload cfg t d p), result,
      (entry_record d p (dict_get_or "above13" VNone info)
         (dict_get_or "above200" VNone info) info ts result).
    split; [exact Hshape|]. split; [reflexivity|]. split; [reflexivity|].
    right. exists k, info, d, p, ts. auto 10. }
  assert (∀ t p ts, trade (handle_exit_for_ticker cfg t p ts s).2) as Hexit.
  { intros t p ts.
    destruct (handle_exit_step cfg t p ts s) as (result & Hshape & ->).
    exists t, (exit_payload t p), result, (exit_record p ts result).
    split; [exact Hshape|]. split; [reflexivity|]. split; [reflexivity|].
    left. exists p, ts. auto. }
  change (quiet (serve cfg s r) ∨ trade (serve cfg s r)).
  destruct r as [data|t p ts|t p ts|secret body]; cbn [serve].
  - left. apply Hupd.
  - apply Hnew.
  - right. apply Hexit.
  - rewrite webhook_run. destruct (_ && _); [left; split; reflexivity|].
    destruct (nonempty_dict _) as [data|].
    + destruct (py_eq_str _ _); [|left; split; reflexivity].
      left. specialize (Hupd data).
      destruct (update_ema_state_from_json data s) as [[[]|e] s']; exact Hupd.
    + destruct (TITAN_RE_search body) as [[t p]|].
      * specialize (Hnew (VStr t) (price_value p) VNone).
        destruct (handle_new_trade_for_ticker _ _ _ _ s) as [[]]; exact Hnew.
      * destruct (EXIT_RE_search body) as [[t p]|]; [|left; split; reflexivity].
        right. specialize (Hexit (VStr t) (price_value p) VNone).
        destruct (handle_exit_for_ticker _ _ _ _ s) as [[]]; exact Hexit.
Qed.

Lemma exit_payload_action (ticker price : val) :
  dict_get "action" (exit_payload ticker price) = Some (VStr "exit").
Proof. unfold exit_payload. destruct (negb (is_none price)); reflexivity. Qed.

Lemma ema_snapshot_shaped data : snapshot_shaped (ema_snapshot data).
Proof. unfold snapshot_shaped, ema_snapshot. eexists _, _, _, _, _, _. reflexivity. Qed.

Lemma truthy_key_nonempty (v : val) k :
  truthy v = true → hash_key v = Some k → k ≠ KNone ∧ k ≠ KStr "".
Proof.
  destruct v; cbn; try discriminate; intros Ht [= <-]; try (split; discriminate).
  - destruct (float_as_int f); split; discriminate.
  - split; [discriminate|]. intros [= ->]. discriminate.
Qed.

(** The invariants kept by every request, proved together. *)
Lemma reachable_invariant s :
  reachable cfg s →
  (∀ k info, EMA_STATE s !! k = Some info →
     snapshot_shaped info ∧ k ≠ KNone ∧ k ≠ KStr "")
  ∧ (∀ k rec, LAST_TRADES s !! k = Some rec → ledger_record_ok rec)
  ∧ http_posts (trace s)
    = (if String.eqb (TP_WEBHOOK_URL cfg) "" then []
       else map (λ payload, (TP_WEBHOOK_URL cfg, payload)) (gateway_calls (trace s)))
  ∧ Forall order_action_ok (gateway_calls (trace s)).
Proof.
  induction 1 as [|s r Hr (IHE & IHL & IHP & IHA)].
  - cbn. split; [|split; [|split]].
    + intros k info. rewrite lookup_empty. discriminate.
    + intros k rec. rewrite lookup_empty. discriminate.
    + now destruct (String.eqb _ _).
    + constructor.
  - assert (∀ k info, EMA_STATE (serve cfg s r) !! k = Some info →
              snapshot_shaped info ∧ k ≠ KNone ∧ k ≠ KStr "") as HE.
    { intros k info.
      destruct (serve_EMA_STATE s r) as [-> | (data & k' & Ht & Hk & ->)];
        [apply IHE|].
      destruct (decide (k' = k)) as [->|Hne].
      - rewrite lookup_insert_eq. intros [= <-].
        split; [apply ema_snapshot_shaped | exact (truthy_key_nonempty _ _ Ht Hk)].
      - rewrite lookup_insert_ne by exact Hne. apply IHE. }
    split; [exact HE|].
    destruct (serve_trades s r)
      as [[HL HT] | (ticker & payload & result & rec & Hshape & HT & HL & Hkind)].
    { rewrite HL, HT. auto. }
    assert (ledger_record_ok rec ∧ order_action_ok payload) as [Hrec Hact].
    { destruct Hkind as [(price & ts & -> & ->)
                        | (k & info & d & price & ts & Hk & Hs & Hd & -> & ->)].
      - split; [left; eauto | right; right; apply exit_payload_action].
      - destruct (IHE k info Hs) as ((b13 & b200 & e1 & e2 & e3 & tm & ->) & _).
        cbn in Hd |- *.
        destruct Hd as [(-> & -> & ->) | (-> & -> & ->)].
        + split; [|left; apply entry_payload_action].
          right. exists true, price, ts. eexists _, result.
          repeat split; eauto. eexists _, _, _, _, _, _. reflexivity.
        + split; [|right; left; apply entry_payload_action].
          right. exists false, price, ts. eexists _, result.
          repeat split; eauto. eexists _, _, _, _, _, _. reflexivity. }
    split; [|split].
    + intros k rec'. rewrite HL. destruct (hash_key ticker) as [hk|]; [|apply IHL].
      destruct (decide (hk = k)) as [->|Hne].
      * rewrite lookup_insert_eq. intros [= <-]. exact Hrec.
      * rewrite lookup_insert_ne by exact Hne. apply IHL.
    + rewrite HT, http_posts_app, gateway_calls_app, IHP. cbn.
      unfold gateway_posts.
      destruct (String.eqb (TP_WEBHOOK_URL cfg) ""); cbn; [reflexivity|].
      rewrite map_app. reflexivity.
    + rewrite HT, gateway_calls_app. apply Forall_app. split; [exact IHA|].
      cbn. unfold gateway_posts.
      destruct (String.eqb (TP_WEBHOOK_URL cfg) ""); cbn;
        (constructor; [exact Hact | constructor]).
Qed.

(** X12. In every state the process can reach, each snapshot of EMA_STATE
    has exactly the six keys above13, above200, ema13, ema200, close, time in
    that order, with two bools and three floats, and no snapshot is stored
    under None or under the empty string. *)
Theorem reachable_snapshots_shaped s k info :
  reachable cfg s →
  EMA_STATE s !! k = Some info →
  snapshot_shaped info ∧ k ≠ KNone ∧ k ≠ KStr "".
Proof. intros Hr. apply (proj1 (reachable_invariant s Hr)). Qed.

(** X13. In every state the process can reach, each record of LAST_TRADES
    is, field by field, either an exit record (last_event exit, price, time,
    tp_result) or an entry record (last_event new_trade, direction, price,
    ema13_above, ema200_above, ema_snapshot, time, tp_result) whose snapshot
    is well formed and holds the two recorded flags; the direction is buy
    only with both flags True and sell only with both False; and tp_result
    is a dict of the shape the gateway returns. *)
Theorem reachable_ledger_ok s k (rec : dict) :
  reachable cfg s →
  LAST_TRADES s !! k = Some rec →
  ledger_record_ok rec.
Proof. intros Hr. apply (proj1 (proj2 (reachable_invariant s Hr))). Qed.

(** X14. In every state the process can reach, the requests put on the
    network are, in order, the payloads handed to the gateway, each sent
    once to TP_WEBHOOK_URL, or none at all when TP_WEBHOOK_URL is empty; and
    every payload handed to the gateway has action buy, sell or exit. *)
Theorem reachable_orders s :
  reachable cfg s →
  http_posts (trace s)
  = (if String.eqb (TP_WEBHOOK_URL cfg) "" then []
     else map (λ payload, (TP_WEBHOOK_URL cfg, payload)) (gateway_calls (trace s)))
  ∧ Forall order_action_ok (gateway_calls (trace s)).
Proof. intros Hr. apply (proj2 (proj2 (reachable_invariant s Hr))). Qed.

(** X15. One request makes at most one call to the gateway and puts at most
    one request on the network (nothing is retried); when it makes no call,
    LAST_TRADES is left as it was. *)
Theorem serve_at_most_one_order s (r : request float) :
  ∃ orders : list dict,
    (length orders ≤ 1)%nat
    ∧ gateway_calls (trace (serve cfg s r)) = gateway_calls (trace s) ++ orders
    ∧ http_posts (trace (serve cfg s r))
      = http_posts (trace s)
        ++ (if String.eqb (TP_WEBHOOK_URL cfg) "" then []
            else map (λ payload, (TP_WEBHOOK_URL cfg, payload)) orders)
    ∧ (orders = [] → LAST_TRADES (serve cfg s r) = LAST_TRADES s).
Proof.
  destruct (serve_trades s r)
    as [[HL HT] | (ticker & payload & result & rec & _ & HT & _)].
  - exists []. rewrite HT, HL. cbn.
    split; [lia|]. split; [now rewrite app_nil_r|]. split; [|reflexivity].
    destruct (String.eqb _ _); now rewrite app_nil_r.
  - exists [payload]. rewrite HT, gateway_calls_app, http_posts_app.
    unfold gateway_posts. cbn.
    split; [lia|].
    destruct (String.eqb (TP_WEBHOOK_URL cfg) ""); cbn;
      (split; [reflexivity|]); (split; [reflexivity|]); discriminate.
Qed.

(** X16. With an endpoint configured, a call to the gateway puts exactly
    one request on the network, to TP_WEBHOOK_URL and with the payload it was
    given; it returns ok, status_code and body as the response has them, or
    ok = False with the text of the exception when the request raised. *)
Theorem send_to_traderspost_posts_once payload s :
  TP_WEBHOOK_URL cfg ≠ "" →
  let out := send_to_traderspost cfg payload s in
  http_posts (trace out.2) = http_posts (trace s) ++ [(TP_WEBHOOK_URL cfg, payload)]
  ∧ EMA_STATE out.2 = EMA_STATE s
  ∧ LAST_TRADES out.2 = LAST_TRADES s
  ∧ out.1 =
      match requests_post (trace s ++ [GatewayCall payload]) (TP_WEBHOOK_URL cfg) payload
      with
      | Responded ok status_code text =>
          Ok [("ok", VBool ok); ("status_code", VInt status_code); ("body", VStr text)]
      | Failed e => Ok [("ok", VBool false); ("error", VStr e)]
      end.
Proof.
  intros Hurl. apply String.eqb_neq in Hurl.
  unfold send_to_traderspost.
  cbv [mbind M_bind mret M_ret emit http_post try_except]. cbn [truthy trace].
  rewrite Hurl. cbn [negb].
  destruct (requests_post _ _ _); cbn;
    rewrite !http_posts_app; cbn; rewrite app_nil_r; auto.
Qed.

End Invariants.

(** ** Properties of the two patterns *)

Section PatternProperties.
Local Open Scope list_scope.

(** *** The engine *)

Lemma first_some_head {A B} (f : A → option B) (x : A) (l : list A) (y : B) :
  f x = Some y → first_some f (x :: l) = Some y.
Proof. intros Hx. cbn. now rewrite Hx. Qed.

Lemma first_some_in {A B} (f : A → option B) (l : list A) (y : B) :
  first_some f l = Some y → ∃ x, In x l ∧ f x = Some y.
Proof.
  induction l as [|x l IH]; cbn; [discriminate|].
  destruct (f x) eqn:Hx.
  - intros [= <-]. eauto.
  - intros Hl. destruct (IH Hl) as (x' & Hin & Hf). eauto.
Qed.

Lemma app_cons (a : ascii) (l s : string) : String a l +:+ s = String a (l +:+ s).
Proof. reflexivity. Qed.

Lemma app_empty (s : string) : "" +:+ s = s.
Proof. reflexivity. Qed.

Lemma strip_prefix_app (l s : string) : strip_prefix l (l +:+ s) = Some s.
Proof.
  induction l as [|a l IH]; [reflexivity|].
  rewrite app_cons. cbn. now rewrite Ascii.eqb_refl.
Qed.

Lemma strip_prefix_inv (l s s' : string) : strip_prefix l s = Some s' → s = l +:+ s'.
Proof.
  revert s. induction l as [|a l IH]; intros s; cbn.
  - now intros [= ->].
  - destruct s as [|b s]; [discriminate|].
    destruct (Ascii.eqb a b) eqn:E; [|discriminate].
    apply Ascii.eqb_eq in E. subst b. intros Hs. now rewrite (IH _ Hs).
Qed.

Lemma length_app_le (t rest : string) :
  (String.length t ≤ String.length (t +:+ rest))%nat.
Proof. induction t; rewrite ?app_cons; cbn; lia. Qed.

Lemma byte_class_ok (p : ascii → bool) : class_ok (byte_class p).
Proof.
  intros [|a s] ch s'; cbn; [discriminate|].
  destruct (p a); [|discriminate]. intros [= <- <-]. split; [reflexivity|discriminate].
Qed.

Lemma space_class_ok : class_ok space_class.
Proof.
  intros s ch s'. unfold space_class.
  destruct s as [|c1 [|c2 [|c3 s3]]]; try discriminate;
    repeat (match goal with
            | |- context [if ?b then _ else _] => destruct b
            end);
    try discriminate; intros [= <- <-]; (split; [reflexivity|discriminate]).
Qed.

(** Greedy repetition of a one-byte class: the first alternative takes the
    whole run. *)
Lemma class_run_greedy (c : char_class) (p : ascii → bool) (t rest : string)
    (fuel : nat) :
  (∀ a s, p a = true → c (String a s) = Some (String a "", s)) →
  str_all p t = true →
  c rest = None →
  (String.length t ≤ fuel)%nat →
  ∃ l, class_run fuel c (t +:+ rest) = (t, rest) :: l.
Proof.
  intros Hc. revert fuel. induction t as [|a t IH]; intros fuel Ht Hrest Hfuel.
  - rewrite app_empty. destruct fuel; cbn; [eauto|]. rewrite Hrest. eauto.
  - cbn in Ht. apply andb_true_iff in Ht as [Ha Ht].
    destruct fuel as [|fuel]; [cbn in Hfuel; lia|]. rewrite app_cons. cbn.
    rewrite (Hc a _ Ha).
    destruct (IH fuel Ht Hrest ltac:(cbn in Hfuel; lia)) as (l & ->).
    cbn. eauto.
Qed.

Lemma star_greedy (c : char_class) (p : ascii → bool) (t rest : string) :
  (∀ a s, p a = true → c (String a s) = Some (String a "", s)) →
  str_all p t = true →
  c rest = None →
  ∃ l, alternatives (Star c) (t +:+ rest) = (t, rest) :: l.
Proof.
  intros Hc Ht Hrest. cbn.
  apply (class_run_greedy c p); auto using length_app_le.
Qed.

Lemma plus_greedy (c : char_class) (p : ascii → bool) (t rest : string) :
  (∀ a s, p a = true → c (String a s) = Some (String a "", s)) →
  str_all p t = true →
  t ≠ "" →
  c rest = None →
  ∃ l, alternatives (Plus c) (t +:+ rest) = (t, rest) :: l.
Proof.
  intros Hc Ht Hne Hrest. destruct t as [|a t]; [contradiction|].
  rewrite app_cons. cbn in Ht |- *. apply andb_true_iff in Ht as [Ha Ht].
  rewrite (Hc a _ Ha).
  destruct (class_run_greedy c p t rest (String.length (t +:+ rest)) Hc Ht Hrest
              (length_app_le t rest)) as (l & ->).
  cbn. eauto.
Qed.

Lemma byte_class_take (p : ascii → bool) (a : ascii) (s : string) :
  p a = true → byte_class p (String a s) = Some (String a "", s).
Proof. intros Ha. cbn. now rewrite Ha. Qed.

Lemma space_class_take (a : ascii) (s : string) :
  space_char a = true → space_class (String a s) = Some (String a "", s).
Proof. intros Ha. cbn. now rewrite Ha. Qed.

Lemma byte_class_stops (p : ascii → bool) (s : string) :
  stops p s → byte_class p s = None.
Proof.
  intros Hs. destruct s as [|a s]; [reflexivity|]. cbn.
  now rewrite (Hs a s eq_refl).
Qed.

(** *** The classes *)

Lemma space_not_ticker (a : ascii) : space_char a = true → ticker_char a = false.
Proof. destruct a as [[] [] [] [] [] [] [] []]; vm_compute; congruence. Qed.

Lemma ticker_plain (a : ascii) :
  ticker_char a = true → space_char a = false ∧ (nat_of_ascii a < 128)%nat.
Proof.
  destruct a as [[] [] [] [] [] [] [] []]; vm_compute; intros; split;
    try congruence; lia.
Qed.

Lemma price_plain (a : ascii) :
  price_char a = true → space_char a = false ∧ (nat_of_ascii a < 128)%nat.
Proof.
  destruct a as [[] [] [] [] [] [] [] []]; vm_compute; intros; split;
    try congruence; lia.
Qed.

(** A one-byte character that is not whitespace does not start a
    whitespace character of several bytes either. *)
Lemma space_class_plain (a : ascii) (s : string) :
  space_char a = false → (nat_of_ascii a < 128)%nat → space_class (String a s) = None.
Proof.
  intros Hsp Hn. unfold space_class. rewrite Hsp.
  assert (Nat.eqb (nat_of_ascii a) 194 = false) as -> by (apply Nat.eqb_neq; lia).
  assert (∀ b2 b3, wide_space (nat_of_ascii a) b2 b3 = false) as Hw.
  { intros b2 b3. unfold wide_space.
    assert (Nat.eqb (nat_of_ascii a) 225 = false) as -> by (apply Nat.eqb_neq; lia).
    assert (Nat.eqb (nat_of_ascii a) 226 = false) as -> by (apply Nat.eqb_neq; lia).
    assert (Nat.eqb (nat_of_ascii a) 227 = false) as -> by (apply Nat.eqb_neq; lia).
    reflexivity. }
  destruct s as [|c2 [|c3 s3]]; cbn [andb]; try reflexivity. now rewrite Hw.
Qed.

Lemma space_class_stops_at (p : ascii → bool) (s : string) :
  (∀ a, p a = true → space_char a = false ∧ (nat_of_ascii a < 128)%nat) →
  str_all p s = true → s ≠ "" → ∀ rest, space_class (s +:+ rest) = None.
Proof.
  intros Hp Hs Hne rest. destruct s as [|a s]; [contradiction|].
  cbn in Hs. apply andb_true_iff in Hs as [Ha _].
  rewrite app_cons. destruct (Hp a Ha). now apply space_class_plain.
Qed.

Lemma ticker_stops_at_space (w rest : string) :
  str_all space_char w = true → w ≠ "" → byte_class ticker_char (w +:+ rest) = None.
Proof.
  intros Hw Hne. destruct w as [|a w]; [contradiction|].
  cbn in Hw. apply andb_true_iff in Hw as [Ha _].
  rewrite app_cons. cbn. now rewrite (space_not_ticker a Ha).
Qed.

(** *** Matching step by step *)

Lemma step_plain (a : atom) (r : regex) (s m s' : string) g g' :
  (∃ l, alternatives a s = (m, s') :: l) →
  match_here r s' g = Some g' →
  match_here (Plain a :: r) s g = Some g'.
Proof. intros (l & Ha) Hr. cbn. rewrite Ha. now apply first_some_head. Qed.

Lemma step_group (name : string) (a : atom) (r : regex) (s m s' : string) g g' :
  (∃ l, alternatives a s = (m, s') :: l) →
  match_here r s' (g ++ [(name, m)]) = Some g' →
  match_here (Group name a :: r) s g = Some g'.
Proof. intros (l & Ha) Hr. cbn. rewrite Ha. now apply first_some_head. Qed.

Lemma lit_alternative (l s : string) :
  ∃ l0, alternatives (Lit l) (l +:+ s) = (l, s) :: l0.
Proof. cbn. rewrite strip_prefix_app. eauto. Qed.

Lemma opt_alternative (l s : string) :
  ∃ l0, alternatives (Opt l) (l +:+ s) = (l, s) :: l0.
Proof. unfold alternatives. rewrite strip_prefix_app. eauto. Qed.

Lemma spaces_then (w rest : string) :
  str_all space_char w = true →
  space_class rest = None →
  ∃ l, alternatives (Star space_class) (w +:+ rest) = (w, rest) :: l.
Proof. intros Hw Hr. apply (star_greedy _ space_char); auto using space_class_take. Qed.

Lemma spaces1_then (w rest : string) :
  str_all space_char w = true → w ≠ "" →
  space_class rest = None →
  ∃ l, alternatives (Plus space_class) (w +:+ rest) = (w, rest) :: l.
Proof. intros Hw Hne Hr. apply (plus_greedy _ space_char); auto using space_class_take. Qed.

Lemma re_search_groups_here (r : regex) (s : string) g :
  match_here r s [] = Some g → re_search_groups r s = Some g.
Proof. intros Hm. destruct s; cbn; now rewrite Hm. Qed.

(** The search passes over a prefix in which no character can start the
    ticker group. *)
Lemma re_search_groups_skip (p : ascii → bool) (name : string) (r : regex)
    (pre s : string) :
  str_all (λ a, negb (p a)) pre = true →
  re_search_groups (Group name (Plus (byte_class p)) :: r) (pre +:+ s)
  = re_search_groups (Group name (Plus (byte_class p)) :: r) s.
Proof.
  induction pre as [|a pre IH]; [reflexivity|].
  cbn [str_all]. intros [Ha Hpre]%andb_true_iff. apply negb_true_iff in Ha.
  rewrite app_cons. cbn. rewrite Ha. cbn. apply IH, Hpre.
Qed.

(** *** What a match holds *)

Lemma match_plain_inv (a : atom) (r : regex) (s : string) g g' :
  match_here (Plain a :: r) s g = Some g' →
  ∃ mr, In mr (alternatives a s) ∧ match_here r mr.2 g = Some g'.
Proof. cbn. apply first_some_in. Qed.

Lemma match_group_inv (name : string) (a : atom) (r : regex) (s : string) g g' :
  match_here (Group name a :: r) s g = Some g' →
  ∃ mr, In mr (alternatives a s)
        ∧ match_here r mr.2 (g ++ [(name, mr.1)]) = Some g'.
Proof. cbn. apply first_some_in. Qed.

Lemma re_search_groups_inv (r : regex) (s : string) g :
  re_search_groups r s = Some g →
  ∃ pre s', s = pre +:+ s' ∧ match_here r s' [] = Some g.
Proof.
  induction s as [|a s IH]; cbn.
  - destruct (match_here r "" []) eqn:Hm; [|discriminate].
    intros [= <-]. exists "", "". auto.
  - destruct (match_here r (String a s) []) eqn:Hm.
    + intros [= <-]. exists "", (String a s). auto.
    + intros Hs. destruct (IH Hs) as (pre & s' & -> & Hm').
      exists (String a pre), s'. auto.
Qed.

Lemma class_run_all (p : ascii → bool) (fuel : nat) (s : string) mr :
  In mr (class_run fuel (byte_class p) s) → str_all p mr.1 = true.
Proof.
  revert s mr. induction fuel as [|fuel IH]; intros s mr; cbn.
  - intros [<- | []]. reflexivity.
  - destruct s as [|a s]; cbn; [intros [<- | []]; reflexivity|].
    destruct (p a) eqn:Ha; [|intros [<- | []]; reflexivity].
    rewrite in_app_iff, in_map_iff.
    intros [(mr' & <- & Hin) | [<- | []]]; [|reflexivity].
    cbn [fst]. rewrite app_cons, app_empty. cbn. rewrite Ha. apply (IH _ _ Hin).
Qed.

Lemma plus_class_all (p : ascii → bool) (s : string) mr :
  In mr (alternatives (Plus (byte_class p)) s) → mr.1 ≠ "" ∧ str_all p mr.1 = true.
Proof.
  cbn. destruct s as [|a s]; cbn; [intros []|].
  destruct (p a) eqn:Ha; [|intros []].
  rewrite in_map_iff. intros (mr' & <- & Hin). cbn [fst].
  rewrite app_cons, app_empty. split; [discriminate|].
  cbn. rewrite Ha. apply (class_run_all _ _ _ _ Hin).
Qed.

(** Both patterns are a ticker group, nine plain items and a price group. *)
Lemma two_groups_inv (a1 a2 a3 a4 a5 a6 a7 a8 a9 : atom) (s : string) g :
  match_here
    [Group "ticker" (Plus (byte_class ticker_char));
     Plain a1; Plain a2; Plain a3; Plain a4; Plain a5; Plain a6; Plain a7; Plain a8;
     Plain a9; Group "price" (Plus (byte_class price_char))] s [] = Some g →
  ∃ t p, g = [("ticker", t); ("price", p)]
         ∧ t ≠ "" ∧ str_all ticker_char t = true
         ∧ p ≠ "" ∧ str_all price_char p = true.
Proof.
  intros Hm.
  apply match_group_inv in Hm as (mt & Ht & Hm).
  do 9 (apply match_plain_inv in Hm as (? & _ & Hm)).
  apply match_group_inv in Hm as (mp & Hp & Hm).
  cbn in Hm. injection Hm as <-.
  destruct (plus_class_all _ _ _ Ht), (plus_class_all _ _ _ Hp).
  exists mt.1, mp.1. auto.
Qed.

(** X17. Whatever text either pattern is searched in, the ticker it yields
    is a non-empty run of capitals, digits and underscores and the price text
    a non-empty run of digits and dots. *)
Theorem search_groups_wellformed (text t p : string) :
  re_search TITAN_RE text = Some (t, p) ∨ re_search EXIT_RE text = Some (t, p) →
  t ≠ "" ∧ str_all ticker_char t = true ∧ p ≠ "" ∧ str_all price_char p = true.
Proof.
  unfold re_search.
  intros [Hs | Hs];
    [destruct (re_search_groups TITAN_RE text) as [g|] eqn:Hg
    |destruct (re_search_groups EXIT_RE text) as [g|] eqn:Hg];
    try discriminate;
    apply re_search_groups_inv in Hg as (pre & s' & _ & Hm);
    apply two_groups_inv in Hm as (t' & p' & -> & Hwf);
    cbn in Hs; injection Hs as <- <-; exact Hwf.
Qed.

(** *** Lines that parse *)

Lemma price_then (p post : string) :
  str_all price_char p = true → p ≠ "" → stops price_char post →
  ∃ l, alternatives (Plus (byte_class price_char)) (p +:+ post) = (p, post) :: l.
Proof.
  intros Hp Hne Hpost.
  apply (plus_greedy _ price_char); auto using byte_class_take, byte_class_stops.
Qed.

Ltac plain_char :=
  rewrite app_cons; apply space_class_plain;
    [reflexivity | apply Nat.ltb_lt; vm_compute; reflexivity].

(** From the equals sign to the end of the line, for both patterns. *)
Lemma match_price_end (w4 w5 p post : string) g :
  str_all space_char w4 = true → str_all space_char w5 = true →
  str_all price_char p = true → p ≠ "" → stops price_char post →
  match_here
    [Plain (Star space_class); Plain (Lit "=");
     Plain (Star space_class); Group "price" (Plus (byte_class price_char))]
    (w4 +:+ "=" +:+ w5 +:+ p +:+ post) g
  = Some (g ++ [("price", p)]).
Proof.
  intros H4 H5 Hp Hne Hpost.
  eapply step_plain;
    [apply spaces_then; [exact H4 | plain_char]|].
  eapply step_plain; [apply lit_alternative|].
  eapply step_plain;
    [apply spaces_then;
     [exact H5 | now apply (space_class_stops_at price_char), Hne; [apply price_plain|]]|].
  eapply step_group; [now apply price_then|]. reflexivity.
Qed.

Lemma titan_line_match (t w1 w2 w3 w4 w5 p post : string) :
  t ≠ "" → str_all ticker_char t = true →
  w1 ≠ "" → str_all space_char w1 = true →
  str_all space_char w2 = true → str_all space_char w3 = true →
  str_all space_char w4 = true → str_all space_char w5 = true →
  p ≠ "" → str_all price_char p = true →
  stops price_char post →
  match_here TITAN_RE (t +:+ w1 +:+ titan_tail w2 w3 w4 w5 p post) []
  = Some [("ticker", t); ("price", p)].
Proof.
  intros Ht0 Ht Hw0 Hw1 Hw2 Hw3 Hw4 Hw5 Hp0 Hp Hpost. unfold TITAN_RE.
  eapply step_group;
    [apply (plus_greedy _ ticker_char);
     auto using byte_class_take, ticker_stops_at_space|].
  unfold titan_tail.
  eapply step_plain;
    [apply spaces1_then; [exact Hw1 | exact Hw0 | plain_char]|].
  eapply step_plain; [apply lit_alternative|].
  eapply step_plain; [apply spaces_then; [exact Hw2 | plain_char]|].
  eapply step_plain; [apply lit_alternative|].
  eapply step_plain; [apply spaces_then; [exact Hw3 | plain_char]|].
  eapply step_plain; [apply lit_alternative|].
  now apply match_price_end.
Qed.

Lemma exit_line_match (comma : bool) (t w1 w2 w3 w4 w5 p post : string) :
  t ≠ "" → str_all ticker_char t = true →
  w1 ≠ "" → str_all space_char w1 = true →
  str_all space_char w2 = true → str_all space_char w3 = true →
  str_all space_char w4 = true → str_all space_char w5 = true →
  p ≠ "" → str_all price_char p = true →
  stops price_char post →
  match_here EXIT_RE (t +:+ w1 +:+ exit_tail comma w2 w3 w4 w5 p post) []
  = Some [("ticker", t); ("price", p)].
Proof.
  intros Ht0 Ht Hw0 Hw1 Hw2 Hw3 Hw4 Hw5 Hp0 Hp Hpost. unfold EXIT_RE.
  eapply step_group;
    [apply (plus_greedy _ ticker_char);
     auto using byte_class_take, ticker_stops_at_space|].
  unfold exit_tail.
  eapply step_plain;
    [apply spaces1_then; [exact Hw1 | exact Hw0 | plain_char]|].
  eapply step_plain; [apply lit_alternative|].
  destruct comma.
  - eapply step_plain; [apply spaces_then; [exact Hw2 | plain_char]|].
    eapply step_plain; [apply opt_alternative|].
    eapply step_plain; [apply spaces_then; [exact Hw3 | plain_char]|].
    eapply step_plain; [apply lit_alternative|].
    now apply match_price_end.
  - eapply step_plain; [apply spaces_then; [exact Hw2 | plain_char]|].
    eapply step_plain; [rewrite app_cons; cbn; eauto|].
    eapply step_plain; [apply (spaces_then ""); [reflexivity | plain_char]|].
    rewrite <- app_cons.
    eapply step_plain; [apply lit_alternative|].
    now apply match_price_end.
Qed.

(** X18. A New Trade line parses to its ticker and price text: a ticker of
    capitals, digits and underscores, at least one blank, the words, the
    comma and the equals sign with any blanks around them, then the price
    text; it may follow text that holds no capital, digit or underscore and
    be followed by text that does not go on with a digit or a dot. *)
Theorem titan_line_parses (pre t w1 w2 w3 w4 w5 p post : string) :
  str_all (λ a, negb (ticker_char a)) pre = true →
  t ≠ "" → str_all ticker_char t = true →
  w1 ≠ "" → str_all space_char w1 = true →
  str_all space_char w2 = true → str_all space_char w3 = true →
  str_all space_char w4 = true → str_all space_char w5 = true →
  p ≠ "" → str_all price_char p = true →
  stops price_char post →
  re_search TITAN_RE (pre +:+ t +:+ w1 +:+ titan_tail w2 w3 w4 w5 p post) = Some (t, p).
Proof.
  intros Hpre Ht0 Ht Hw0 Hw1 Hw2 Hw3 Hw4 Hw5 Hp0 Hp Hpost.
  unfold re_search, TITAN_RE at 1. rewrite (re_search_groups_skip _ _ _ _ _ Hpre).
  fold TITAN_RE.
  now rewrite (re_search_groups_here _ _ _
                 (titan_line_match t w1 w2 w3 w4 w5 p post
                    Ht0 Ht Hw0 Hw1 Hw2 Hw3 Hw4 Hw5 Hp0 Hp Hpost)).
Qed.

(** X19. An Exit line parses to its ticker and price text in the same way,
    with the comma after the words or without it. *)
Theorem exit_line_parses (comma : bool) (pre t w1 w2 w3 w4 w5 p post : string) :
  str_all (λ a, negb (ticker_char a)) pre = true →
  t ≠ "" → str_all ticker_char t = true →
  w1 ≠ "" → str_all space_char w1 = true →
  str_all space_char w2 = true → str_all space_char w3 = true →
  str_all space_char w4 = true → str_all space_char w5 = true →
  p ≠ "" → str_all price_char p = true →
  stops price_char post →
  re_search EXIT_RE (pre +:+ t +:+ w1 +:+ exit_tail comma w2 w3 w4 w5 p post)
  = Some (t, p).
Proof.
  intros Hpre Ht0 Ht Hw0 Hw1 Hw2 Hw3 Hw4 Hw5 Hp0 Hp Hpost.
  unfold re_search, EXIT_RE at 1. rewrite (re_search_groups_skip _ _ _ _ _ Hpre).
  fold EXIT_RE.
  now rewrite (re_search_groups_here _ _ _
                 (exit_line_match comma t w1 w2 w3 w4 w5 p post
                    Ht0 Ht Hw0 Hw1 Hw2 Hw3 Hw4 Hw5 Hp0 Hp Hpost)).
Qed.

(** *** Lines that cannot match *)

Lemma app_assoc_str (a b c : string) : (a +:+ b) +:+ c = a +:+ (b +:+ c).
Proof. induction a as [|x a IH]; [reflexivity|]. rewrite !app_cons. now rewrite IH. Qed.

Lemma str_mem_app (c : ascii) (a b : string) :
  str_mem c (a +:+ b) = str_mem c a || str_mem c b.
Proof.
  induction a as [|x a IH]; [reflexivity|].
  rewrite app_cons. cbn. rewrite IH. apply orb_assoc.
Qed.

Lemma str_all_not_mem (p : ascii → bool) (c : ascii) (s : string) :
  p c = false → str_all p s = true → str_mem c s = false.
Proof.
  intros Hc. induction s as [|x s IH]; [reflexivity|]. cbn.
  intros [Hx Hs]%andb_true_iff. rewrite (IH Hs), orb_false_r.
  apply Ascii.eqb_neq. intros ->. congruence.
Qed.

Lemma class_run_suffix (c : char_class) (fuel : nat) (s : string) mr :
  class_ok c → In mr (class_run fuel c s) → s = mr.1 +:+ mr.2.
Proof.
  intros Hc. revert s mr. induction fuel as [|fuel IH]; intros s mr; cbn.
  - intros [<- | []]. reflexivity.
  - destruct (c s) as [[ch s']|] eqn:Hs; [|intros [<- | []]; reflexivity].
    rewrite in_app_iff, in_map_iff.
    intros [(mr' & <- & Hin) | [<- | []]]; [|reflexivity].
    cbn. rewrite app_assoc_str, <- (IH _ _ Hin). apply (Hc _ _ _ Hs).
Qed.

Lemma alternatives_suffix (a : atom) (s : string) mr :
  atom_ok a → In mr (alternatives a s) → s = mr.1 +:+ mr.2.
Proof.
  destruct a as [l|c|c|l]; cbn; intros Hok.
  - destruct (strip_prefix l s) as [s'|] eqn:Hs; [|intros []].
    intros [<- | []]. apply (strip_prefix_inv _ _ _ Hs).
  - apply class_run_suffix, Hok.
  - destruct (c s) as [[ch s']|] eqn:Hs; [|intros []].
    rewrite in_map_iff. intros (mr' & <- & Hin). cbn.
    rewrite app_assoc_str, <- (class_run_suffix _ _ _ _ Hok Hin). apply (Hok _ _ _ Hs).
  - destruct (strip_prefix l s) as [s'|] eqn:Hs.
    + intros [<- | [<- | []]]; [apply (strip_prefix_inv _ _ _ Hs) | reflexivity].
    + intros [<- | []]. reflexivity.
Qed.

(** A match of a pattern holds every character of every literal of it. *)
Lemma match_here_lit_chars (r : regex) (s : string) g g' (l : string) (c : ascii) :
  regex_ok r →
  match_here r s g = Some g' →
  In (Plain (Lit l)) r →
  str_mem c l = true →
  str_mem c s = true.
Proof.
  intros Hok Hm Hin Hc. revert s g Hm.
  induction r as [|it r IH]; [destruct Hin|]. intros s g Hm.
  assert (regex_ok r) as Hok' by (intros it' Hit; apply Hok; now right).
  assert (∃ mr g0, In mr (alternatives (atom_of it) s)
                   ∧ match_here r mr.2 g0 = Some g') as (mr & g0 & Hmr & Hrest).
  { destruct it as [a|n a].
    - apply match_plain_inv in Hm as (mr & ? & ?). eauto.
    - apply match_group_inv in Hm as (mr & ? & ?). eauto. }
  pose proof (alternatives_suffix _ _ _ (Hok it (or_introl eq_refl)) Hmr) as Hs.
  rewrite Hs, str_mem_app.
  destruct Hin as [-> | Hin].
  - cbn in Hmr. destruct (strip_prefix l s); [|destruct Hmr].
    destruct Hmr as [<- | []]. cbn. now rewrite Hc.
  - rewrite (IH Hok' Hin _ _ Hrest). apply orb_true_r.
Qed.

Lemma search_needs_char (r : regex) (s l : string) (c : ascii) :
  regex_ok r →
  In (Plain (Lit l)) r →
  str_mem c l = true →
  str_mem c s = false →
  re_search r s = None.
Proof.
  intros Hok Hin Hc Hs. unfold re_search.
  destruct (re_search_groups r s) as [g|] eqn:Hg; [|reflexivity].
  apply re_search_groups_inv in Hg as (pre & s' & -> & Hm).
  rewrite str_mem_app, (match_here_lit_chars r s' [] g l c Hok Hm Hin Hc) in Hs.
  now rewrite orb_true_r in Hs.
Qed.

Lemma regex_ok_TITAN_RE : regex_ok TITAN_RE.
Proof.
  intros it Hin. repeat (destruct Hin as [<- | Hin]); cbn;
    auto using byte_class_ok, space_class_ok. destruct Hin.
Qed.

Lemma regex_ok_EXIT_RE : regex_ok EXIT_RE.
Proof.
  intros it Hin. repeat (destruct Hin as [<- | Hin]); cbn;
    auto using byte_class_ok, space_class_ok. destruct Hin.
Qed.

(** The letter x of the word Exit occurs nowhere in a New Trade line, and
    the letter w of the word New nowhere in an Exit line. *)
Lemma titan_line_no_exit (t w1 w2 w3 w4 w5 p : string) :
  str_all ticker_char t = true →
  str_all space_char w1 = true →
  str_all space_char w2 = true → str_all space_char w3 = true →
  str_all space_char w4 = true → str_all space_char w5 = true →
  str_all price_char p = true →
  re_search EXIT_RE (t +:+ w1 +:+ titan_tail w2 w3 w4 w5 p "") = None.
Proof.
  intros Ht H1 H2 H3 H4 H5 Hp.
  apply (search_needs_char _ _ "Exit Signal" "x" regex_ok_EXIT_RE);
    [cbn; tauto | reflexivity |].
  unfold titan_tail. rewrite !str_mem_app.
  rewrite (str_all_not_mem ticker_char "x" t eq_refl Ht),
    (str_all_not_mem space_char "x" w1 eq_refl H1),
    (str_all_not_mem space_char "x" w2 eq_refl H2),
    (str_all_not_mem space_char "x" w3 eq_refl H3),
    (str_all_not_mem space_char "x" w4 eq_refl H4),
    (str_all_not_mem space_char "x" w5 eq_refl H5),
    (str_all_not_mem price_char "x" p eq_refl Hp).
  reflexivity.
Qed.

Lemma exit_line_no_titan (comma : bool) (t w1 w2 w3 w4 w5 p : string) :
  str_all ticker_char t = true →
  str_all space_char w1 = true →
  str_all space_char w2 = true → str_all space_char w3 = true →
  str_all space_char w4 = true → str_all space_char w5 = true →
  str_all price_char p = true →
  re_search TITAN_RE (t +:+ w1 +:+ exit_tail comma w2 w3 w4 w5 p "") = None.
Proof.
  intros Ht H1 H2 H3 H4 H5 Hp.
  apply (search_needs_char _ _ "New Trade Design" "w" regex_ok_TITAN_RE);
    [cbn; tauto | reflexivity |].
  unfold exit_tail. destruct comma; rewrite !str_mem_app;
    rewrite (str_all_not_mem ticker_char "w" t eq_refl Ht),
      (str_all_not_mem space_char "w" w1 eq_refl H1),
      (str_all_not_mem space_char "w" w2 eq_refl H2),
      ?(str_all_not_mem space_char "w" w3 eq_refl H3),
      (str_all_not_mem space_char "w" w4 eq_refl H4),
      (str_all_not_mem space_char "w" w5 eq_refl H5),
      (str_all_not_mem price_char "w" p eq_refl Hp);
    reflexivity.
Qed.

(** X20. The two kinds of line are never taken for one another: in a New
    Trade line the exit pattern matches nowhere, and in an Exit line, with
    or without its comma, the New Trade pattern matches nowhere. *)
Theorem lines_not_confused (comma : bool) (t w1 w2 w3 w4 w5 p : string) :
  str_all ticker_char t = true →
  str_all space_char w1 = true →
  str_all space_char w2 = true → str_all space_char w3 = true →
  str_all space_char w4 = true → str_all space_char w5 = true →
  str_all price_char p = true →
  re_search EXIT_RE (t +:+ w1 +:+ titan_tail w2 w3 w4 w5 p "") = None
  ∧ re_search TITAN_RE (t +:+ w1 +:+ exit_tail comma w2 w3 w4 w5 p "") = None.
Proof.
  intros. split; [now apply titan_line_no_exit | now apply exit_line_no_titan].
Qed.

End PatternProperties.

(** ** From the line to the order *)

Section EndToEnd.
Context {float : Type} `{Countable float} {RT : PyRuntime float} {LB : Libs float}.
Context (cfg : config).
Local Open Scope list_scope.

Abbreviation val := (value float).
Abbreviation dict := (pydict float).
Abbreviation st := (state float).

Implicit Types (s : st) (data info result payload : dict) (k : key float).

(** X21. When the searches of the library are those of the two patterns, an
    Exit line sent with a good secret always reaches the gateway: the route
    hands it one exit order for the line's ticker, with the float of the
    price text, or no price when float rejects it, records the exit under the
    ticker and answers 200 or 500 by the gateway's ok. *)
Theorem exit_line_reaches_gateway (secret : option string) (comma : bool)
    (t w1 w2 w3 w4 w5 p : string) s :
  (∀ text, TITAN_RE_search text = re_search TITAN_RE text) →
  (∀ text, EXIT_RE_search text = re_search EXIT_RE text) →
  secret_ok cfg secret →
  let line := t +:+ w1 +:+ exit_tail comma w2 w3 w4 w5 p "" in
  (∀ d, json_loads line = Some (VDict d) → d = []) →
  t ≠ "" → str_all ticker_char t = true →
  w1 ≠ "" → str_all space_char w1 = true →
  str_all space_char w2 = true → str_all space_char w3 = true →
  str_all space_char w4 = true → str_all space_char w5 = true →
  p ≠ "" → str_all price_char p = true →
  let order : dict :=
    ([("ticker", VStr t); ("action", VStr "exit")]
     ++ (if is_none (price_value p) then [] else [("price", price_value p)]))%list in
  ∃ result (ok : bool),
    gateway_shaped result
    ∧ dict_get "ok" result = Some (VBool ok)
    ∧ webhook cfg secret line s =
        (Ok ([("ok", dict_get_or "ok" (VBool false) result); ("detail", VDict result)],
             if ok then 200 else 500),
         {| EMA_STATE := EMA_STATE s;
            LAST_TRADES :=
              <[KStr t := [("last_event", VStr "exit");
                           ("price", price_value p);
                           ("time", VNone);
                           ("tp_result", VDict result)]]> (LAST_TRADES s);
            trace := trace s ++ GatewayCall order :: gateway_posts cfg order |}).
Proof.
  intros Htitan Hexit Hsec line Hjson Ht0 Ht Hw0 Hw1 Hw2 Hw3 Hw4 Hw5 Hp0 Hp order.
  subst order. rewrite <- (exit_payload_fields (VStr t) (price_value p)).
  assert (stops price_char "") as Hstop by (intros c s' [=]).
  destruct (handle_exit_str_reply cfg t (price_value p) VNone s)
    as (result & ok & Hshape & Hok & Hst & Hrun).
  exists result, ok. split; [exact Hshape|]. split; [exact Hok|].
  rewrite webhook_run, (secret_ok_check cfg secret Hsec).
  rewrite (nonempty_dict_none _ Hjson), Htitan, Hexit.
  subst line.
  rewrite (exit_line_no_titan comma t w1 w2 w3 w4 w5 p Ht Hw1 Hw2 Hw3 Hw4 Hw5 Hp).
  unfold re_search.
  rewrite (re_search_groups_here _ _ _
             (exit_line_match comma t w1 w2 w3 w4 w5 p ""
                Ht0 Ht Hw0 Hw1 Hw2 Hw3 Hw4 Hw5 Hp0 Hp Hstop)).
  cbn [group String.eqb Ascii.eqb Bool.eqb]. rewrite Hrun, Hst. reflexivity.
Qed.

(** X22. When the search of the library is that of the New Trade pattern, a
    New Trade line sent with a good secret for a ticker whose stored flags
    are bools is decided by them: with one True and one False it is answered
    200 with the skip reason ema_alignment_filter and nothing changes; with
    both equal, one order goes to the gateway for the line's ticker, buy for
    True and sell for False, with the float of the price text, the entry is
    recorded with the stored snapshot, and the answer is 200 or 500 by the
    gateway's ok. *)
Theorem titan_line_is_decided (secret : option string)
    (t w1 w2 w3 w4 w5 p : string) s info (b13 b200 : bool) :
  (∀ text, TITAN_RE_search text = re_search TITAN_RE text) →
  secret_ok cfg secret →
  let line := t +:+ w1 +:+ titan_tail w2 w3 w4 w5 p "" in
  (∀ d, json_loads line = Some (VDict d) → d = []) →
  t ≠ "" → str_all ticker_char t = true →
  w1 ≠ "" → str_all space_char w1 = true →
  str_all space_char w2 = true → str_all space_char w3 = true →
  str_all space_char w4 = true → str_all space_char w5 = true →
  p ≠ "" → str_all price_char p = true →
  EMA_STATE s !! KStr t = Some info →
  dict_get "above13" info = Some (VBool b13) →
  dict_get "above200" info = Some (VBool b200) →
  let direction := if b13 then "buy" else "sell" in
  let order : dict :=
    ([("ticker", VStr t); ("action", VStr direction)]
     ++ (if 0 <? TP_DEFAULT_QTY cfg
         then [("quantity", VInt (TP_DEFAULT_QTY cfg))] else [])
     ++ (if is_none (price_value p) then [] else [("price", price_value p)]))%list in
  (b13 ≠ b200 →
   webhook cfg secret line s
   = (Ok ([("ok", VBool true); ("skipped", VStr "ema_alignment_filter")], 200), s))
  ∧ (b13 = b200 →
     ∃ result (ok : bool),
       gateway_shaped result
       ∧ dict_get "ok" result = Some (VBool ok)
       ∧ webhook cfg secret line s =
           (Ok ([("ok", dict_get_or "ok" (VBool false) result);
                 ("detail", VDict result)],
                if ok then 200 else 500),
            {| EMA_STATE := EMA_STATE s;
               LAST_TRADES :=
                 <[KStr t := [("last_event", VStr "new_trade");
                              ("direction", VStr direction);
                              ("price", price_value p);
                              ("ema13_above", VBool b13);
                              ("ema200_above", VBool b200);
                              ("ema_snapshot", VDict info);
                              ("time", VNone);
                              ("tp_result", VDict result)]]> (LAST_TRADES s);
               trace := trace s ++ GatewayCall order :: gateway_posts cfg order |})).
Proof.
  intros Htitan Hsec line Hjson Ht0 Ht Hw0 Hw1 Hw2 Hw3 Hw4 Hw5 Hp0 Hp
    Hs H13 H200 direction order.
  subst order. rewrite <- (entry_payload_fields cfg (VStr t) direction (price_value p)).
  assert (stops price_char "") as Hstop by (intros c s' [=]).
  assert (webhook cfg secret line s =
          match handle_new_trade_for_ticker cfg (VStr t) (price_value p) VNone s with
          | (Ok result, s') => (Ok (result, status_of result), s')
          | (Raise e, s') => (Raise e, s')
          end) as ->.
  { rewrite webhook_run, (secret_ok_check cfg secret Hsec).
    rewrite (nonempty_dict_none _ Hjson), Htitan. subst line. unfold re_search.
    rewrite (re_search_groups_here _ _ _
               (titan_line_match t w1 w2 w3 w4 w5 p ""
                  Ht0 Ht Hw0 Hw1 Hw2 Hw3 Hw4 Hw5 Hp0 Hp Hstop)).
    reflexivity. }
  rewrite (handle_new_trade_flags cfg (VStr t) (price_value p) VNone s (KStr t)
             info b13 b200 eq_refl Hs H13 H200).
  split.
  - intros Hne. destruct b13, b200; try contradiction; reflexivity.
  - intros <-.
    destruct (submit_entry_step cfg (VStr t) direction (price_value p)
                (VBool b13) (VBool b13) info VNone s) as (result & Hshape & Hrun).
    destruct (gateway_shaped_ok result Hshape) as (ok & Hok & _ & Hst).
    exists result, ok. split; [exact Hshape|]. split; [exact Hok|].
    subst direction. destruct b13; cbn [andb negb] in *;
      rewrite Hrun; cbn [hash_key]; rewrite Hst; reflexivity.
Qed.

End EndToEnd.

(** ** The further properties on the example runtimes *)

Lemma update_last_wins_witness :
  EMA_STATE (update_ema_state_from_json LineExample.ema_message_down
               (update_ema_state_from_json ema_message init).2).2 !! KStr "MNQZ2025"
  = Some [("above13", VBool false); ("above200", VBool false);
          ("ema13", VFloat 0); ("ema200", VFloat 0); ("close", VFloat 20900);
          ("time", VStr "")].
Proof.
  exact (proj2 (update_last_wins ema_message LineExample.ema_message_down init
                  (KStr "MNQZ2025") eq_refl eq_refl eq_refl eq_refl)).
Defined.

Lemma update_commute_witness :
  KStr "MNQZ2025" ≠ KStr (float := Z) "ESZ2025"
  ∧ (update_ema_state_from_json LineExample.ema_message_es
       (update_ema_state_from_json ema_message init).2).2
    = (update_ema_state_from_json ema_message
         (update_ema_state_from_json LineExample.ema_message_es init).2).2.
Proof.
  assert (KStr "MNQZ2025" ≠ KStr (float := Z) "ESZ2025") as Hne by discriminate.
  split; [exact Hne|].
  exact (update_commute ema_message LineExample.ema_message_es init
           (KStr "MNQZ2025") (KStr "ESZ2025") eq_refl eq_refl Hne).
Defined.

Lemma update_then_entry_witness :
  dict_get "ticker" LineExample.ema_message_down = Some (VStr "MNQZ2025")
  ∧ ∃ result,
      gateway_calls
        (trace (handle_new_trade_for_ticker cfg (VStr "MNQZ2025") (VFloat 20890) VNone
                  (update_ema_state_from_json LineExample.ema_message_down init).2).2)
      = [[("ticker", VStr "MNQZ2025"); ("action", VStr "sell"); ("quantity", VInt 1);
          ("price", VFloat 20890)]]
      ∧ LAST_TRADES
          (handle_new_trade_for_ticker cfg (VStr "MNQZ2025") (VFloat 20890) VNone
             (update_ema_state_from_json LineExample.ema_message_down init).2).2
          !! KStr "MNQZ2025"
        = Some [("last_event", VStr "new_trade");
                ("direction", VStr "sell");
                ("price", VFloat 20890);
                ("ema13_above", VBool false);
                ("ema200_above", VBool false);
                ("ema_snapshot",
                 VDict [("above13", VBool false); ("above200", VBool false);
                        ("ema13", VFloat 0); ("ema200", VFloat 0);
                        ("close", VFloat 20900); ("time", VStr "")]);
                ("time", VNone);
                ("tp_result", VDict result)].
Proof.
  split; [reflexivity|].
  assert ("MNQZ2025" ≠ "") as Hne by discriminate.
  destruct (proj2 (update_then_entry cfg LineExample.ema_message_down "MNQZ2025"
                     (VFloat 20890) VNone init eq_refl Hne) eq_refl)
    as (result & _ & Hcalls & Hrec).
  exists result. split; [exact Hcalls | exact Hrec].
Defined.

Lemma webhook_secret_gate_witness :
  WEBHOOK_SECRET cfg ≠ ""
  ∧ Some "guess" ≠ Some (WEBHOOK_SECRET cfg)
  ∧ webhook cfg (Some "guess") LineExample.titan_line (with_trend aligned_up)
    = (Ok ([("ok", VBool false); ("error", VStr "invalid secret")], 403),
       with_trend aligned_up).
Proof.
  assert (WEBHOOK_SECRET cfg ≠ "") as Hs by discriminate.
  assert (Some "guess" ≠ Some (WEBHOOK_SECRET cfg)) as Hne by discriminate.
  split; [exact Hs|]. split; [exact Hne|].
  exact (proj1 (webhook_secret_gate cfg (Some "guess") LineExample.titan_line
                  (with_trend aligned_up)) Hs Hne).
Defined.

Lemma webhook_ema_update_acknowledged_witness :
  secret_ok cfg (Some "s3cret")
  ∧ webhook cfg (Some "s3cret") no_ticker_body (with_trend aligned_up)
    = (Ok ([("ok", VBool true)], 200), with_trend aligned_up).
Proof.
  assert (secret_ok cfg (Some "s3cret")) as Hsec by (right; reflexivity).
  assert (json_loads no_ticker_body
          = Some (VDict [("type", VStr "ema_update"); ("above13", VStr "true")])) as Hl
    by reflexivity.
  split; [exact Hsec|].
  exact (proj2 (webhook_ema_update_acknowledged cfg (Some "s3cret") no_ticker_body
                  _ (with_trend aligned_up) Hsec Hl eq_refl) eq_refl).
Defined.

Lemma webhook_raises_on_unhashable_ticker_only_witness :
  webhook (LB := LineExample.libs) cfg_unset None LineExample.list_ticker_body init
  = (Raise (TypeError "unhashable type: 'list'"), init).
Proof.
  assert (secret_ok cfg_unset None) as Hsec by (left; reflexivity).
  assert (json_loads (Libs := LineExample.libs) LineExample.list_ticker_body
          = Some (VDict LineExample.list_ticker_message)) as Hl by reflexivity.
  exact (proj2 (webhook_raises_on_unhashable_ticker_only (LB := LineExample.libs)
                  cfg_unset None LineExample.list_ticker_body init)
           LineExample.list_ticker_message (VList [VStr "MNQZ2025"])
           Hsec Hl eq_refl eq_refl eq_refl eq_refl).
Defined.

Lemma webhook_structured_never_trades_witness :
  trace (webhook cfg (Some "s3cret") ema_update_body (with_trend aligned_up)).2 = []
  ∧ LAST_TRADES (webhook cfg (Some "s3cret") ema_update_body (with_trend aligned_up)).2
    = ∅.
Proof.
  assert (json_loads ema_update_body
          = Some (VDict [("type", VStr "ema_update"); ("ticker", VStr "MNQZ2025");
                         ("above13", VStr "TRUE")])) as Hl by reflexivity.
  destruct (webhook_structured_never_trades cfg (Some "s3cret") ema_update_body _
              (with_trend aligned_up) Hl ltac:(discriminate)) as [HL HT].
  split; [exact HT | exact HL].
Defined.

Lemma webhook_entry_alert_witness :
  TITAN_RE_search "MNQZ2025 New Trade Design , Price = 21065"
  = Some ("MNQZ2025", "21065")
  ∧ ∃ reply (ok : bool) s',
      dict_get "ok" reply = Some (VBool ok)
      ∧ webhook cfg (Some "s3cret") "MNQZ2025 New Trade Design , Price = 21065"
          (with_trend aligned_up)
        = (Ok (reply, if ok then 200 else 500), s').
Proof.
  split; [reflexivity|].
  assert (secret_ok cfg (Some "s3cret")) as Hsec by (right; reflexivity).
  assert (∀ d : pydict Z,
            json_loads "MNQZ2025 New Trade Design , Price = 21065" = Some (VDict d)
            → d = []) as Hj by (intros d; discriminate).
  destruct (webhook_entry_alert cfg (Some "s3cret")
              "MNQZ2025 New Trade Design , Price = 21065" "MNQZ2025" "21065"
              (with_trend aligned_up) Hsec Hj eq_refl)
    as (reply & ok & s' & _ & Hok & Hrun).
  exists reply, ok, s'. split; [exact Hok | exact Hrun].
Defined.

Lemma webhook_exit_alert_witness :
  EXIT_RE_search "MNQZ2025 Exit Signal, Price = 21040" = Some ("MNQZ2025", "21040")
  ∧ ∃ result (ok : bool),
      LAST_TRADES (webhook cfg (Some "s3cret") "MNQZ2025 Exit Signal, Price = 21040"
                     init).2 !! KStr "MNQZ2025"
      = Some [("last_event", VStr "exit");
              ("price", VFloat 21040);
              ("time", VNone);
              ("tp_result", VDict result)].
Proof.
  split; [reflexivity|].
  assert (secret_ok cfg (Some "s3cret")) as Hsec by (right; reflexivity).
  assert (∀ d : pydict Z,
            json_loads "MNQZ2025 Exit Signal, Price = 21040" = Some (VDict d)
            → d = []) as Hj by (intros d; discriminate).
  destruct (webhook_exit_alert cfg (Some "s3cret")
              "MNQZ2025 Exit Signal, Price = 21040" "MNQZ2025" "21040"
              init Hsec Hj eq_refl eq_refl)
    as (result & ok & _ & _ & Hrun).
  exists result, ok. rewrite Hrun. cbn [snd LAST_TRADES]. apply lookup_insert_eq.
Defined.

Lemma webhook_unrecognized_witness :
  webhook cfg (Some "s3cret") "hello" (with_trend aligned_up)
  = (Ok ([("ok", VBool false); ("error", VStr "unrecognized payload")], 400),
     with_trend aligned_up).
Proof.
  assert (secret_ok cfg (Some "s3cret")) as Hsec by (right; reflexivity).
  assert (∀ d : pydict Z, json_loads "hello" = Some (VDict d) → d = []) as Hj
    by (intros d; discriminate).
  exact (webhook_unrecognized cfg (Some "s3cret") "hello" (with_trend aligned_up)
           Hsec Hj eq_refl eq_refl).
Defined.

Lemma reachable_snapshots_shaped_witness :
  reachable cfg (serve cfg init (ReqWebhook (Some "s3cret") ema_update_body))
  ∧ snapshot_shaped
      [("above13", VBool true); ("above200", VBool false);
       ("ema13", VFloat 0); ("ema200", VFloat 0); ("close", VFloat 0);
       ("time", VStr (float := Z) "")].
Proof.
  assert (reachable cfg (serve cfg init (ReqWebhook (Some "s3cret") ema_update_body)))
    as Hr by (apply reachable_serve, reachable_init).
  split; [exact Hr|].
  refine (proj1 (reachable_snapshots_shaped cfg _ (KStr "MNQZ2025") _ Hr _)).
  vm_compute. reflexivity.
Defined.

Lemma reachable_ledger_ok_witness :
  reachable cfg
    (serve cfg (serve cfg init (ReqUpdate LineExample.ema_message_down))
       (ReqWebhook (Some "s3cret") "MNQZ2025 New Trade Design , Price = 21065"))
  ∧ LAST_TRADES
      (serve cfg (serve cfg init (ReqUpdate LineExample.ema_message_down))
         (ReqWebhook (Some "s3cret") "MNQZ2025 New Trade Design , Price = 21065"))
      !! KStr "MNQZ2025"
    = Some [("last_event", VStr "new_trade");
            ("direction", VStr "sell");
            ("price", VFloat 21065);
            ("ema13_above", VBool false);
            ("ema200_above", VBool false);
            ("ema_snapshot",
             VDict [("above13", VBool false); ("above200", VBool false);
                    ("ema13", VFloat 0); ("ema200", VFloat 0);
                    ("close", VFloat 20900); ("time", VStr "")]);
            ("time", VNone);
            ("tp_result",
             VDict [("ok", VBool true); ("status_code", VInt 200); ("body", VStr "ok")])]
  ∧ ledger_record_ok
      [("last_event", VStr "new_trade");
       ("direction", VStr "sell");
       ("price", VFloat 21065);
       ("ema13_above", VBool false);
       ("ema200_above", VBool false);
       ("ema_snapshot",
        VDict [("above13", VBool false); ("above200", VBool false);
               ("ema13", VFloat 0); ("ema200", VFloat 0);
               ("close", VFloat 20900); ("time", VStr "")]);
       ("time", VNone);
       ("tp_result",
        VDict [("ok", VBool true); ("status_code", VInt 200); ("body", VStr "ok")])].
Proof.
  assert (reachable cfg
            (serve cfg (serve cfg init (ReqUpdate LineExample.ema_message_down))
               (ReqWebhook (Some "s3cret") "MNQZ2025 New Trade Design , Price = 21065")))
    as Hr by (apply reachable_serve, reachable_serve, reachable_init).
  assert (LAST_TRADES
            (serve cfg (serve cfg init (ReqUpdate LineExample.ema_message_down))
               (ReqWebhook (Some "s3cret") "MNQZ2025 New Trade Design , Price = 21065"))
            !! KStr "MNQZ2025"
          = Some [("last_event", VStr "new_trade");
                  ("direction", VStr "sell");
                  ("price", VFloat 21065);
                  ("ema13_above", VBool false);
                  ("ema200_above", VBool false);
                  ("ema_snapshot",
                   VDict [("above13", VBool false); ("above200", VBool false);
                          ("ema13", VFloat 0); ("ema200", VFloat 0);
                          ("close", VFloat 20900); ("time", VStr "")]);
                  ("time", VNone);
                  ("tp_result",
                   VDict [("ok", VBool true); ("status_code", VInt 200);
                          ("body", VStr "ok")])]) as HL
    by (vm_compute; reflexivity).
  split; [exact Hr|]. split; [exact HL|].
  exact (reachable_ledger_ok cfg _ (KStr "MNQZ2025") _ Hr HL).
Defined.

Lemma reachable_orders_witness :
  reachable cfg
    (serve cfg init (ReqWebhook (Some "s3cret") "MNQZ2025 Exit Signal, Price = 21040"))
  ∧ http_posts
      (trace (serve cfg init
                (ReqWebhook (Some "s3cret") "MNQZ2025 Exit Signal, Price = 21040")))
    = [("https://tp.example/hook", exit_order)].
Proof.
  assert (reachable cfg
            (serve cfg init
               (ReqWebhook (Some "s3cret") "MNQZ2025 Exit Signal, Price = 21040")))
    as Hr by (apply reachable_serve, reachable_init).
  split; [exact Hr|].
  rewrite (proj1 (reachable_orders cfg _ Hr)). vm_compute. reflexivity.
Defined.

Lemma send_to_traderspost_posts_once_witness :
  TP_WEBHOOK_URL cfg ≠ ""
  ∧ http_posts (trace (send_to_traderspost (LB := LineExample.libs) cfg exit_order init).2)
    = [("https://tp.example/hook", exit_order)]
  ∧ (send_to_traderspost (LB := LineExample.libs) cfg exit_order init).1
    = Ok [("ok", VBool false); ("error", VStr "timed out")].
Proof.
  assert (TP_WEBHOOK_URL cfg ≠ "") as Hurl by discriminate.
  split; [exact Hurl|].
  destruct (send_to_traderspost_posts_once (LB := LineExample.libs) cfg exit_order init
              Hurl) as (Hp & _ & _ & Hr).
  split; [exact Hp | exact Hr].
Defined.

Lemma search_groups_wellformed_witness :
  re_search EXIT_RE LineExample.exit_line = Some ("MNQZ2025", "25787.00")
  ∧ str_all ticker_char "MNQZ2025" = true
  ∧ str_all price_char "25787.00" = true.
Proof.
  assert (re_search EXIT_RE LineExample.exit_line = Some ("MNQZ2025", "25787.00"))
    as Hs by (vm_compute; reflexivity).
  split; [exact Hs|].
  destruct (search_groups_wellformed LineExample.exit_line "MNQZ2025" "25787.00"
              (or_intror Hs)) as (_ & Ht & _ & Hp).
  split; [exact Ht | exact Hp].
Defined.

Lemma stops_empty (p : ascii → bool) : stops p "".
Proof. intros c s' Hs. discriminate Hs. Defined.

Lemma titan_line_parses_witness :
  re_search TITAN_RE LineExample.titan_line = Some ("MNQZ2025", "25787.50").
Proof.
  exact (titan_line_parses "" "MNQZ2025" " " " " " " " " " " "25787.50" ""
           eq_refl ltac:(discriminate) eq_refl ltac:(discriminate) eq_refl
           eq_refl eq_refl eq_refl eq_refl ltac:(discriminate) eq_refl
           (stops_empty price_char)).
Defined.

Lemma exit_line_parses_witness :
  re_search EXIT_RE ("exit: " +:+ LineExample.exit_line +:+ " (close)")
  = Some ("MNQZ2025", "25787.00").
Proof.
  assert (stops price_char " (close)") as Hstop by (intros c s' [= <- _]; reflexivity).
  exact (exit_line_parses true "exit: " "MNQZ2025" " " "" "  " " " " " "25787.00"
           " (close)"
           eq_refl ltac:(discriminate) eq_refl ltac:(discriminate) eq_refl
           eq_refl eq_refl eq_refl eq_refl ltac:(discriminate) eq_refl Hstop).
Defined.

Lemma lines_not_confused_witness :
  re_search EXIT_RE LineExample.titan_line = None
  ∧ re_search TITAN_RE LineExample.exit_line = None.
Proof.
  destruct (lines_not_confused true "MNQZ2025" " " " " " " " " " " "25787.50"
              eq_refl eq_refl eq_refl eq_refl eq_refl eq_refl eq_refl) as [H1 _].
  destruct (lines_not_confused true "MNQZ2025" " " "" "  " " " " " "25787.00"
              eq_refl eq_refl eq_refl eq_refl eq_refl eq_refl eq_refl) as [_ H2].
  split; [exact H1 | exact H2].
Defined.

Lemma exit_line_reaches_gateway_witness :
  ∃ result (ok : bool),
    gateway_shaped result
    ∧ dict_get "ok" result = Some (VBool ok)
    ∧ webhook (LB := LineExample.libs) cfg_unset None
        "MNQZ2025 Exit Signal,  Price = 25787" init =
        (Ok ([("ok", dict_get_or "ok" (VBool false) result); ("detail", VDict result)],
             if ok then 200 else 500),
         {| EMA_STATE := ∅;
            LAST_TRADES :=
              <[KStr "MNQZ2025" := [("last_event", VStr "exit");
                                    ("price", VFloat 25787);
                                    ("time", VNone);
                                    ("tp_result", VDict result)]]> ∅;
            trace := [GatewayCall [("ticker", VStr "MNQZ2025"); ("action", VStr "exit");
                                   ("price", VFloat 25787)]] |}).
Proof.
  assert (secret_ok cfg_unset None) as Hsec by (left; reflexivity).
  assert (∀ d : pydict Z,
            json_loads (Libs := LineExample.libs) "MNQZ2025 Exit Signal,  Price = 25787"
            = Some (VDict d)
            → d = []) as Hj by (intros d; discriminate).
  exact (exit_line_reaches_gateway (LB := LineExample.libs) cfg_unset None true
           "MNQZ2025" " " "" "  " " " " " "25787" init
           (λ _, eq_refl) (λ _, eq_refl) Hsec Hj
           ltac:(discriminate) eq_refl ltac:(discriminate) eq_refl
           eq_refl eq_refl eq_refl eq_refl ltac:(discriminate) eq_refl).
Defined.

Lemma titan_line_is_decided_witness :
  EMA_STATE (with_trend aligned_up) !! KStr "MNQZ2025" = Some aligned_up
  ∧ ∃ result (ok : bool),
      gateway_shaped result
      ∧ dict_get "ok" result = Some (VBool ok)
      ∧ webhook (LB := LineExample.libs) cfg (Some "s3cret")
          "MNQZ2025 New Trade Design , Price = 25787" (with_trend aligned_up) =
          (Ok ([("ok", dict_get_or "ok" (VBool false) result); ("detail", VDict result)],
               if ok then 200 else 500),
           {| EMA_STATE := EMA_STATE (with_trend aligned_up);
              LAST_TRADES :=
                <[KStr "MNQZ2025" := [("last_event", VStr "new_trade");
                                      ("direction", VStr "buy");
                                      ("price", VFloat 25787);
                                      ("ema13_above", VBool true);
                                      ("ema200_above", VBool true);
                                      ("ema_snapshot", VDict aligned_up);
                                      ("time", VNone);
                                      ("tp_result", VDict result)]]> ∅;
              trace :=
                [GatewayCall [("ticker", VStr "MNQZ2025"); ("action", VStr "buy");
                              ("quantity", VInt 1); ("price", VFloat 25787)];
                 HttpPost "https://tp.example/hook"
                   [("ticker", VStr "MNQZ2025"); ("action", VStr "buy");
                    ("quantity", VInt 1); ("price", VFloat 25787)]] |}).
Proof.
  assert (EMA_STATE (with_trend aligned_up) !! KStr "MNQZ2025" = Some aligned_up) as Hs
    by (vm_compute; reflexivity).
  assert (secret_ok cfg (Some "s3cret")) as Hsec by (right; reflexivity).
  assert (∀ d : pydict Z,
            json_loads (Libs := LineExample.libs)
              "MNQZ2025 New Trade Design , Price = 25787" = Some (VDict d)
            → d = []) as Hj by (intros d; discriminate).
  split; [exact Hs|].
  exact (proj2 (titan_line_is_decided (LB := LineExample.libs) cfg (Some "s3cret")
                  "MNQZ2025" " " " " " " " " " " "25787" (with_trend aligned_up)
                  aligned_up true true
                  (λ _, eq_refl) Hsec Hj
                  ltac:(discriminate) eq_refl ltac:(discriminate) eq_refl
                  eq_refl eq_refl eq_refl eq_refl ltac:(discriminate) eq_refl
                  Hs eq_refl eq_refl) eq_refl).
Defined.
